(** * DearDayOne: the incremental export engine of [deardayone.py]

    A shallow embedding of the export script and the properties of its
    page resolver, state store, publisher and orchestrator.

    Conventions of the embedding.
    - Python [str] is [string]; characters are ASCII.
    - A decoded JSON value is a [json]; a finite double is kept as the
      exact value [m * 2^e] it denotes.
    - A Python dict whose keys the script reads with [d[k]] is a record
      with that field; a key it reads with [d.get(k, default)] or tests
      with [k in d] is an [option] field.  Page identifiers and the three
      scalar configuration fields are strings.
    - The reMarkable data directory is a finite map from paths to nodes;
      the configuration directory is absent, or present with or without
      [config.json].  File operations fail only where a file is missing
      or does not hold JSON (no permission or disk-space failures), and
      page identifiers are file-name stems.
    - External programs, the rendering of dates, the home directory and
      the temporary directory belong to a [platform] record; the result
      of a program may depend on everything the run did before.
    - A run keeps a [log] of what it does to the outside: the programs
      it runs, the file it removes, the configurations it saves. *)

From Stdlib Require Import ZArith Ascii String Sorted.
From stdpp Require Import base option list sorting strings pretty gmap sets.

Local Open Scope string_scope.
Local Open Scope Z_scope.
Set Warnings "-register-all,-clear-no-such-hyp".

(** ** Python values and builtins *)

Module Py.

(** A finite double [m * 2^e], NaN, or a signed infinity. *)
Inductive pyfloat :=
| FNaN
| FInf (negative : bool)
| FFin (m e : Z).

(** What [json.load] can return. *)
Inductive json :=
| JNull
| JBool (b : bool)
| JInt (n : Z)
| JFloat (f : pyfloat)
| JStr (s : string)
| JArr (items : list json)
| JObj (members : list (string * json)).

Inductive exn :=
| ValueError
| TypeError
| OverflowError
| KeyError (key : string)
| FileNotFoundError (path : string)
| IsADirectoryError (path : string)
| JSONDecodeError
| RuntimeError (msg : string)
| SpawnError (cls msg : string).

(** [bool(v)] *)
Definition truthy (v : json) : bool :=
  match v with
  | JNull => false
  | JBool b => b
  | JInt n => negb (n =? 0)
  | JFloat FNaN => true
  | JFloat (FInf _) => true
  | JFloat (FFin m _) => negb (m =? 0)
  | JStr s => negb (String.eqb s "")
  | JArr items => match items with [] => false | _ => true end
  | JObj members => match members with [] => false | _ => true end
  end.

(** [str.isspace] on one ASCII character. *)
Definition isspace (c : ascii) : bool :=
  let n := nat_of_ascii c in
  ((9 <=? n) && (n <=? 13) || (28 <=? n) && (n <=? 32))%nat.

Fixpoint lstrip (s : string) : string :=
  match s with
  | String c s' => if isspace c then lstrip s' else s
  | EmptyString => EmptyString
  end.

(** [s.rstrip()]: a character is dropped when it is blank and so is
    everything after it. *)
Fixpoint rstrip (s : string) : string :=
  match s with
  | String c s' =>
      match rstrip s' with
      | EmptyString => if isspace c then EmptyString else String c EmptyString
      | r => String c r
      end
  | EmptyString => EmptyString
  end.

(** [s.strip()] *)
Definition strip (s : string) : string := rstrip (lstrip s).

Definition digit_value (c : ascii) : option Z :=
  let n := nat_of_ascii c in
  if ((48 <=? n) && (n <=? 57))%nat then Some (Z.of_nat n - 48) else None.

(** Decimal digits, single underscores allowed between two digits. *)
Fixpoint digits (acc : Z) (after_digit : bool) (s : string) : option Z :=
  match s with
  | EmptyString => if after_digit then Some acc else None
  | String c s' =>
      match digit_value c with
      | Some d => digits (10 * acc + d) true s'
      | None =>
          if Ascii.eqb c "_"%char && after_digit
          then digits acc false s'
          else None
      end
  end.

(** [int(s)] for a string: blanks around, an optional sign, digits. *)
Definition int_of_str (s : string) : option Z :=
  match strip s with
  | String "-"%char r => Z.opp <$> digits 0 false r
  | String "+"%char r => digits 0 false r
  | r => digits 0 false r
  end.

(** [int(f)] for a float: truncation toward zero. *)
Definition int_of_float (f : pyfloat) : exn + Z :=
  match f with
  | FNaN => inl ValueError
  | FInf _ => inl OverflowError
  | FFin m e => inr (if 0 <=? e then m * 2 ^ e else Z.quot m (2 ^ (- e)))
  end.

(** [int(v)] *)
Definition int (v : json) : exn + Z :=
  match v with
  | JNull => inl TypeError
  | JBool b => inr (if b then 1 else 0)
  | JInt n => inr n
  | JFloat f => int_of_float f
  | JStr s => match int_of_str s with Some n => inr n | None => inl ValueError end
  | JArr _ => inl TypeError
  | JObj _ => inl TypeError
  end.

End Py.
Export Py.

(** ** Page List Resolver *)

(** One element of the content descriptor's [cPages.pages] list. *)
Record page_entry := PageEntry {
  entry_id : option string;
  entry_modifed : option json;
  entry_modified : option json;
}.

(** One element of the list [get_page_list] returns. *)
Record page_info := PageInfo {
  info_id : string;
  modified_ms : Z;
}.

(** [p.get("modifed", p.get("modified", "0"))] *)
Definition raw_modified (p : page_entry) : json :=
  default (default (JStr "0") (entry_modified p)) (entry_modifed p).

(** [int(modified_ms) if modified_ms else 0] *)
Definition to_modified_ms (v : json) : exn + Z :=
  if truthy v then int v else inr 0.

(** The loop of [get_page_list] over [pages]. *)
Fixpoint resolve_pages (pages : list page_entry) : exn + list page_info :=
  match pages with
  | [] => inr []
  | p :: rest =>
      match entry_id p with
      | None => resolve_pages rest
      | Some page_id =>
          match to_modified_ms (raw_modified p) with
          | inl e => inl e
          | inr ms =>
              match resolve_pages rest with
              | inl e => inl e
              | inr infos => inr (PageInfo page_id ms :: infos)
              end
          end
      end
  end.

(** ** Files, configuration and the run-time world *)

(** What a regular file holds, as far as [json.load] can tell. *)
Inductive body (A : Type) :=
| Empty
| Opaque
| Json (doc : A).
Arguments Empty {A}.
Arguments Opaque {A}.
Arguments Json {A} doc.

(** The persisted configuration. *)
Record config := Config {
  remarkable_notebook_guid : string;
  remarkable_notebook_name : string;
  dayone_journal : string;
  exported_pages : option (list string);
}.

(** The value under [cPages] in a content descriptor. *)
Inductive cpages :=
| CPagesDict (pages : option (list page_entry))
| CPagesOther.

Record content := Content {
  cPages : option cpages;
}.

Record metadata := Metadata {
  visibleName : option string;
}.

(** JSON documents of the reMarkable data directory. *)
Inductive document :=
| ContentDoc (c : content)
| MetadataDoc (m : metadata).

Inductive node :=
| Dir
| File (b : body document).

(** What [subprocess.run] does: the child runs to completion, or the
    call itself raises (a missing binary, for instance). *)
Inductive proc_outcome :=
| Completed (returncode : Z) (out err : string)
| NotRun (cls msg : string).

(** The date a page is stamped with: its [modified_ms], or the
    modification time of its stroke file. *)
Inductive page_date :=
| FromModified (ms : Z)
| FromMtime (rm_file : string).

(** Effects a run has outside its own memory, in the order they occur. *)
Inductive event :=
| Spawn (argv : list string) (res : proc_outcome)
| Unlink (path : string)
| Saved (c : config).

(** [config_home] is the directory [CONFIG_DIR]: [None] when it does
    not exist, [Some None] when it exists without [config.json],
    [Some (Some b)] when [config.json] holds [b]. *)
Record world := World {
  config_home : option (option (body config));
  store : gmap string node;
  stdin : list string;
  stdout : list string;
  log : list event;
}.

Record platform := Platform {
  home : string;
  tmp_dir : string;
  subprocess_run : list event -> list string -> proc_outcome;
  strftime : page_date -> string;
}.

Definition set_config_home (h : option (option (body config))) (w : world) : world :=
  World h (store w) (stdin w) (stdout w) (log w).

Definition set_stdin (i : list string) (w : world) : world :=
  World (config_home w) (store w) i (stdout w) (log w).

Definition add_stdout (s : string) (w : world) : world :=
  World (config_home w) (store w) (stdin w) (stdout w ++ [s]) (log w).

Definition add_log (e : event) (w : world) : world :=
  World (config_home w) (store w) (stdin w) (stdout w) (log w ++ [e]).

(** ** Computations: a value, [sys.exit], or an uncaught exception *)

Inductive result (A : Type) :=
| Ok (a : A)
| Exit (code : Z)
| Raise (e : exn).
Arguments Ok {A} a.
Arguments Exit {A} code.
Arguments Raise {A} e.

Definition M (A : Type) : Type := world -> result A * world.

Definition ret {A} (a : A) : M A := fun w => (Ok a, w).

Definition bind {A B} (m : M A) (k : A -> M B) : M B :=
  fun w =>
    match m w with
    | (Ok a, w') => k a w'
    | (Exit c, w') => (Exit c, w')
    | (Raise e, w') => (Raise e, w')
    end.

Notation "x <- m ;; k" := (bind m (fun x => k))
  (at level 100, m at next level, right associativity).
Notation "m ;;; k" := (bind m (fun _ => k))
  (at level 100, right associativity).

Definition sys_exit {A} (code : Z) : M A := fun w => (Exit code, w).

Definition raise {A} (e : exn) : M A := fun w => (Raise e, w).

(** [try: m  except Exception as e: h e]; [sys.exit] passes through. *)
Definition try_except {A} (m : M A) (h : exn -> M A) : M A :=
  fun w =>
    match m w with
    | (Raise e, w') => h e w'
    | r => r
    end.

Definition gets {A} (f : world -> A) : M A := fun w => (Ok (f w), w).

Definition modify (f : world -> world) : M unit := fun w => (Ok tt, f w).

Definition nl : string := String "010"%char EmptyString.

(** [print(s)] *)
Definition print (s : string) : M unit := modify (add_stdout (s ++ nl)).

(** [print(s, end="", flush=True)] *)
Definition print_noeol (s : string) : M unit := modify (add_stdout s).

Definition emit (e : event) : M unit := modify (add_log e).

(** [Path(d) / name] *)
Definition joinpath (d name : string) : string := d ++ "/" ++ name.

(** [Path.exists] inside the data directory. *)
Definition path_exists (p : string) : M bool :=
  gets (fun w => bool_decide (is_Some (store w !! p))).

(** [str(n)] for a position or a count. *)
Definition show (n : nat) : string := pretty n.

Section Engine.

Variable P : platform.

Definition CONFIG_DIR : string := home P ++ "/.config/deardayone".
Definition CONFIG_FILE : string := CONFIG_DIR ++ "/config.json".
Definition RMC_BIN : string := home P ++ "/.local/bin/rmc".
Definition INKSCAPE_BIN : string := "/opt/homebrew/bin/inkscape".
Definition DAYONE_BIN : string := "/usr/local/bin/dayone".

(** ** Export State Store *)

Definition load_config : M (option config) :=
  h <- gets config_home ;;
  match h with
  | None => ret None
  | Some None => ret None
  | Some (Some (Json c)) => ret (Some c)
  | Some (Some _) => raise JSONDecodeError
  end.

(** [CONFIG_DIR.mkdir(parents=True, exist_ok=True)] *)
Definition mkdir_config_dir : M unit :=
  modify (fun w =>
    match config_home w with
    | None => set_config_home (Some None) w
    | Some _ => w
    end).

(** [open(CONFIG_FILE, "w")]: the file is created or cut to length 0. *)
Definition open_truncate : M unit :=
  h <- gets config_home ;;
  match h with
  | None => raise (FileNotFoundError CONFIG_FILE)
  | Some _ => modify (set_config_home (Some (Some Empty)))
  end.

(** [json.dump(config, f, indent=2)] and the close that ends the
    [with] block: the document is on disk. *)
Definition dump_and_close (c : config) : M unit :=
  modify (set_config_home (Some (Some (Json c)))) ;;;
  emit (Saved c).

(** The file operations of [save_config], in program order. *)
Definition save_config_steps (c : config) : list (M unit) :=
  [mkdir_config_dir; open_truncate; dump_and_close c].

Fixpoint sequence (steps : list (M unit)) : M unit :=
  match steps with
  | [] => ret tt
  | s :: rest => s ;;; sequence rest
  end.

Definition save_config (c : config) : M unit :=
  sequence (save_config_steps c).

(** A save that the process does not survive: only the first [k]
    file operations happen. *)
Definition save_config_interrupted (k : nat) (c : config) : M unit :=
  sequence (take k (save_config_steps c)).

(** ** Page List Resolver, on the data directory *)

Definition get_page_list (data_dir guid : string) : M (list page_info) :=
  let content_file := joinpath data_dir (guid ++ ".content") in
  n <- gets (fun w => store w !! content_file) ;;
  match n with
  | None => raise (FileNotFoundError content_file)
  | Some Dir => raise (IsADirectoryError content_file)
  | Some (File (Json d)) =>
      let pages :=
        match d with
        | ContentDoc c =>
            match cPages c with
            | Some (CPagesDict ps) => default [] ps
            | Some CPagesOther => []
            | None => []
            end
        | MetadataDoc _ => []
        end in
      match resolve_pages pages with
      | inl e => raise e
      | inr infos => ret infos
      end
  | Some (File _) => raise JSONDecodeError
  end.

(** ** Conversion Pipeline *)

(** [subprocess.run(argv, capture_output=True, text=True)] *)
Definition run (argv : list string) : M (Z * string * string) :=
  fun w =>
    let r := subprocess_run P (log w) argv in
    let w' := add_log (Spawn argv r) w in
    match r with
    | Completed rc out err => (Ok (rc, out, err), w')
    | NotRun cls msg => (Raise (SpawnError cls msg), w')
    end.

(** The part of [s] before its last dot, when it has one. *)
Fixpoint before_last_dot (s : string) : option string :=
  match s with
  | EmptyString => None
  | String c s' =>
      match before_last_dot s' with
      | Some h => Some (String c h)
      | None => if Ascii.eqb c "."%char then Some EmptyString else None
      end
  end.

(** [s.rsplit(".", 1)[0]] *)
Definition rsplit_dot_head (s : string) : string :=
  default s (before_last_dot s).

Definition is_linebreak (c : ascii) : bool :=
  let n := nat_of_ascii c in
  ((10 <=? n) && (n <=? 13) || (28 <=? n) && (n <=? 30))%nat.

Fixpoint splitlines_from (s cur : string) (after_cr : bool) : list string :=
  match s with
  | EmptyString => if String.eqb cur "" then [] else [cur]
  | String c s' =>
      if Ascii.eqb c "010"%char && after_cr then splitlines_from s' cur false
      else if is_linebreak c
      then cur :: splitlines_from s' "" (Ascii.eqb c "013"%char)
      else splitlines_from s' (cur ++ String c "") false
  end.

(** [s.splitlines()] *)
Definition splitlines (s : string) : list string := splitlines_from s "" false.

Definition convert_rm_to_png (rm_path output_path : string) : M string :=
  let svg_path := rsplit_dot_head output_path ++ ".svg" in
  r1 <- run [RMC_BIN; "-t"; "svg"; rm_path; "-o"; svg_path] ;;
  let '(rc1, _, err1) := r1 in
  if negb (rc1 =? 0) then
    let lines := splitlines (strip err1) in
    let error_line := default "unknown error" (last lines) in
    raise (RuntimeError ("rmc conversion failed: " ++ error_line))
  else
    r2 <- run [INKSCAPE_BIN; "--export-type=png";
               "--export-filename=" ++ output_path; svg_path] ;;
    let '(rc2, _, err2) := r2 in
    if negb (rc2 =? 0) then
      raise (RuntimeError ("inkscape conversion failed: " ++ strip err2))
    else
      emit (Unlink svg_path) ;;;
      ret output_path.

(** ** Destination Publisher *)

Definition nonempty (s : string) : bool := negb (String.eqb s "").

(** The argument vector [cmd] of [create_dayone_entry].  The attachment
    is [None] or a path object, which is always true. *)
Definition dayone_cmd (journal date_str : string) (tags : list string)
    (attachment_path : option string) (body_text : string) : list string :=
  let cmd := [DAYONE_BIN] in
  let cmd := if nonempty journal then (cmd ++ ["--journal"; journal])%list else cmd in
  let cmd := if nonempty date_str then (cmd ++ ["--date"; date_str])%list else cmd in
  let cmd := match tags with [] => cmd | _ => (cmd ++ "--tags" :: tags)%list end in
  let cmd := match attachment_path with
             | Some a => (cmd ++ ["--attachments"; a])%list
             | None => cmd
             end in
  let cmd := (cmd ++ ["--"])%list in
  (cmd ++ ["new"; body_text])%list.

Definition create_dayone_entry (journal date_str : string) (tags : list string)
    (attachment_path : option string) (body_text : string) : M string :=
  r <- run (dayone_cmd journal date_str tags attachment_path body_text) ;;
  let '(rc, out, err) := r in
  if negb (rc =? 0) then raise (RuntimeError ("dayone failed: " ++ strip err))
  else ret (strip out).


(** ** Export Orchestrator *)

(** One element of [to_export]: [(i, page_id, rm_file, page_date)]. *)
Definition pending : Type := nat * string * string * page_date.

(** The loop that fills [to_export]; [i] is the index [enumerate]
    gives to the head of [page_infos]. *)
Fixpoint select_pages (files : gmap string node) (exported : gset string)
    (notebook_dir : string) (i : nat) (page_infos : list page_info)
    : list pending :=
  match page_infos with
  | [] => []
  | page_info :: rest =>
      let page_id := info_id page_info in
      let later := select_pages files exported notebook_dir (S i) rest in
      if bool_decide (page_id ∈ exported) then later
      else
        let rm_file := joinpath notebook_dir (page_id ++ ".rm") in
        if negb (bool_decide (is_Some (files !! rm_file))) then later
        else
          let page_date :=
            if 0 <? modified_ms page_info
            then FromModified (modified_ms page_info)
            else FromMtime rm_file in
          (i, page_id, rm_file, page_date) :: later
  end.

(** The loop variables of the export loop. *)
Record progress := Progress {
  exported : gset string;
  config_now : config;
  exported_count : nat;
  error_count : nat;
}.

Definition with_exported_pages (c : config) (l : list string) : config :=
  Config (remarkable_notebook_guid c) (remarkable_notebook_name c)
         (dayone_journal c) (Some l).

(** [type(e).__name__] *)
Definition exn_name (e : exn) : string :=
  match e with
  | ValueError => "ValueError"
  | TypeError => "TypeError"
  | OverflowError => "OverflowError"
  | KeyError _ => "KeyError"
  | FileNotFoundError _ => "FileNotFoundError"
  | IsADirectoryError _ => "IsADirectoryError"
  | JSONDecodeError => "JSONDecodeError"
  | RuntimeError _ => "RuntimeError"
  | SpawnError cls _ => cls
  end.

(** [str(e)], for the exceptions whose text the embedding carries. *)
Definition exn_text (e : exn) : string :=
  match e with
  | RuntimeError msg => msg
  | SpawnError _ msg => msg
  | KeyError key => "'" ++ key ++ "'"
  | FileNotFoundError path =>
      "[Errno 2] No such file or directory: '" ++ path ++ "'"
  | IsADirectoryError path => "[Errno 21] Is a directory: '" ++ path ++ "'"
  | _ => ""
  end.

(** The two [except] clauses of the export loop. *)
Definition record_failure (st : progress) (e : exn) : M progress :=
  match e with
  | RuntimeError _ => print ("FAILED - " ++ exn_text e)
  | _ => print ("FAILED - " ++ exn_name e ++ ": " ++ exn_text e)
  end ;;;
  ret (Progress (exported st) (config_now st)
                (exported_count st) (S (error_count st))).

(** The [try] block of the export loop up to the point where the
    publisher has returned: [None] when conversion and publication
    succeeded, the exception otherwise. *)
Definition attempt (notebook_name journal : string) (item : pending)
    : M (option exn) :=
  let '(i, page_id, rm_file, page_date) := item in
  let page_num := S i in
  let date_str := strftime P page_date in
  let png_path := joinpath (tmp_dir P) (page_id ++ ".png") in
  try_except
    (convert_rm_to_png rm_file png_path ;;;
     let body := "Page " ++ show page_num ++ " of " ++ notebook_name in
     let tags := ["reMarkable"; notebook_name] in
     create_dayone_entry journal date_str tags (Some png_path) body ;;;
     ret None)
    (fun e => ret (Some e)).

(** The body of the export loop for one element of [to_export].  The
    [try] block is cut after the publisher returns: from there on the
    loop variables [exported] and [config] have their new values, also
    for the [except] clauses. *)
Definition export_page (total : nat) (notebook_name journal : string)
    (item : pending) (st : progress) : M progress :=
  let '(i, page_id, rm_file, page_date) := item in
  let page_num := S i in
  let date_str := strftime P page_date in
  print_noeol ("  Page " ++ show page_num ++ "/" ++ show total ++ ": ") ;;;
  published <- attempt notebook_name journal item ;;
  match published with
  | Some e => record_failure st e
  | None =>
      let exported' := {[page_id]} ∪ exported st in
      let config' := with_exported_pages (config_now st) (elements exported') in
      try_except
        (save_config config' ;;;
         print ("OK (" ++ date_str ++ ")") ;;;
         ret (Progress exported' config'
                       (S (exported_count st)) (error_count st)))
        (record_failure (Progress exported' config'
                                  (exported_count st) (error_count st)))
  end.

Fixpoint export_loop (total : nat) (notebook_name journal : string)
    (to_export : list pending) (st : progress) : M progress :=
  match to_export with
  | [] => ret st
  | item :: rest =>
      st' <- export_page total notebook_name journal item st ;;
      export_loop total notebook_name journal rest st'
  end.

(** The dry-run listing, one line for each element of [to_export]. *)
Fixpoint dry_run_report (to_export : list pending) : M unit :=
  match to_export with
  | [] => ret tt
  | (i, page_id, rm_file, page_date) :: rest =>
      let date_str := strftime P page_date in
      print ("  Page " ++ show (S i) ++ ": " ++ substring 0 8 page_id
             ++ "... (" ++ date_str ++ ")") ;;;
      dry_run_report rest
  end.

Definition run_export (data_dir : string) (dry_run : bool) : M unit :=
  loaded <- load_config ;;
  match loaded with
  | None =>
      print "No configuration found. Run `deardayone --setup` first." ;;;
      sys_exit 1
  | Some config =>
      let guid := remarkable_notebook_guid config in
      let notebook_name := remarkable_notebook_name config in
      let journal := dayone_journal config in
      let exported : gset string :=
        list_to_set (default [] (exported_pages config)) in
      let meta_file := joinpath data_dir (guid ++ ".metadata") in
      found <- path_exists meta_file ;;
      if negb found then
        print ("Error: Notebook '" ++ notebook_name ++ "' (" ++ guid
               ++ ") not found in reMarkable data.") ;;;
        print "  It may have been deleted or the data hasn't synced." ;;;
        print "  Run `deardayone --setup` to select a different notebook." ;;;
        sys_exit 1
      else
        page_infos <- get_page_list data_dir guid ;;
        let notebook_dir := joinpath data_dir guid in
        match page_infos with
        | [] => print ("Notebook '" ++ notebook_name ++ "' has no pages.")
        | _ =>
            files <- gets store ;;
            let to_export :=
              select_pages files exported notebook_dir 0 page_infos in
            let already_exported := size exported in
            match to_export with
            | [] =>
                print ("Nothing to export. All " ++ show (length page_infos)
                       ++ " pages of '" ++ notebook_name
                       ++ "' are already exported.")
            | _ =>
                let action :=
                  if dry_run then "Would export" else "Exporting" in
                print (action ++ " " ++ show (length to_export)
                       ++ " page(s) from '" ++ notebook_name
                       ++ "' to Day One journal '" ++ journal ++ "'") ;;;
                (if negb (already_exported =? 0)%nat
                 then print ("  (" ++ show already_exported
                             ++ " page(s) already exported, skipping)")
                 else ret tt) ;;;
                print "" ;;;
                if dry_run then
                  dry_run_report to_export ;;;
                  print (nl ++ "Run without --dry-run to export.")
                else
                  st <- export_loop (length page_infos) notebook_name journal
                          to_export (Progress exported config 0 0) ;;
                  print "" ;;;
                  print ("Done! " ++ show (exported_count st)
                         ++ " page(s) exported, " ++ show (error_count st)
                         ++ " error(s).") ;;;
                  if negb (error_count st =? 0)%nat
                  then print "  Re-run to retry failed pages."
                  else ret tt
            end
        end
  end.

(** The run up to the end of its diffing stage: the configuration,
    the resolved page list and [to_export], when the run gets there. *)
Definition diffing (data_dir : string) (w : world)
    : option (config * list page_info * list pending) :=
  match load_config w with
  | (Ok (Some config), _) =>
      let guid := remarkable_notebook_guid config in
      let exported : gset string :=
        list_to_set (default [] (exported_pages config)) in
      match path_exists (joinpath data_dir (guid ++ ".metadata")) w with
      | (Ok true, _) =>
          match get_page_list data_dir guid w with
          | (Ok page_infos, _) =>
              Some (config, page_infos,
                    select_pages (store w) exported (joinpath data_dir guid)
                                 0 page_infos)
          | _ => None
          end
      | _ => None
      end
  | _ => None
  end.

(** ** Setup *)

(** A notebook as [discover_notebooks] reports it, with the fields
    [run_setup] reads. *)
Record notebook := Notebook {
  nb_guid : string;
  nb_name : string;
  nb_parent : string;
  nb_page_count : nat;
  nb_rm_count : nat;
}.

Definition get_folder_name (data_dir parent_guid : string) : M string :=
  if negb (nonempty parent_guid) || String.eqb parent_guid "trash" then ret ""
  else
    let meta_file := joinpath data_dir (parent_guid ++ ".metadata") in
    n <- gets (fun w => store w !! meta_file) ;;
    match n with
    | Some (File (Json (MetadataDoc meta))) => ret (default "" (visibleName meta))
    | _ => ret ""
    end.

(** [f"{i:3d}"] *)
Definition show3 (i : nat) : string :=
  let s := show i in
  String.concat "" (replicate (3 - String.length s) " ") ++ s.

(** [input(prompt)]: [None] stands for [EOFError]. *)
Definition input (prompt : string) : M (option string) :=
  print_noeol prompt ;;;
  lines <- gets stdin ;;
  match lines with
  | [] => ret None
  | l :: rest => modify (set_stdin rest) ;;; ret (Some l)
  end.

Definition cancelled {A} : M A :=
  print (nl ++ "Setup cancelled.") ;;; sys_exit 0.

(** The [while True] loop that asks for a number between 1 and
    [count]; every round reads one of [lines], the lines left on
    standard input.  Its value is the index chosen. *)
Fixpoint select_number (prompt : string) (count : nat) (lines : list string)
    : M nat :=
  answer <- input prompt ;;
  match lines, answer with
  | _ :: rest, Some l =>
      let choice := strip l in
      match int_of_str choice with
      | Some n =>
          let idx := n - 1 in
          if (0 <=? idx) && (idx <? Z.of_nat count) then ret (Z.to_nat idx)
          else
            print ("  Please enter a number between 1 and " ++ show count) ;;;
            select_number prompt count rest
      | None =>
          print "  Please enter a valid number" ;;;
          select_number prompt count rest
      end
  | _, _ => cancelled
  end.

Fixpoint list_notebooks (data_dir : string) (i : nat) (notebooks : list notebook)
    : M unit :=
  match notebooks with
  | [] => ret tt
  | nb :: rest =>
      folder <- get_folder_name data_dir (nb_parent nb) ;;
      let location := if nonempty folder then "  [" ++ folder ++ "]" else "" in
      print ("  " ++ show3 i ++ ". " ++ nb_name nb ++ location ++ "  ("
             ++ show (nb_rm_count nb) ++ "/" ++ show (nb_page_count nb)
             ++ " pages with content)") ;;;
      list_notebooks data_dir (S i) rest
  end.

Fixpoint list_journals (i : nat) (journals : list string) : M unit :=
  match journals with
  | [] => ret tt
  | j :: rest => print ("  " ++ show3 i ++ ". " ++ j) ;;; list_journals (S i) rest
  end.

(** The end of [run_setup], once the notebook and the journal are
    chosen: the previous export records are kept for the same notebook,
    and the configuration is saved. *)
Definition finish_setup (selected : notebook) (journal : string) : M unit :=
  existing <- load_config ;;
  let keep :=
    match existing with
    | Some old => String.eqb (remarkable_notebook_guid old) (nb_guid selected)
    | None => false
    end in
  let exported_pages :=
    if keep then default [] (existing ≫= exported_pages) else [] in
  (if keep
   then print ("  (Preserving " ++ show (length exported_pages)
               ++ " previously exported page records)")
   else ret tt) ;;;
  let config := Config (nb_guid selected) (nb_name selected) journal
                       (Some exported_pages) in
  save_config config ;;;
  print (nl ++ "Setup complete!") ;;;
  print ("  Notebook: " ++ nb_name selected) ;;;
  print ("  Journal:  " ++ journal) ;;;
  print ("  Config:   " ++ CONFIG_FILE) ;;;
  print (nl ++ "Run `deardayone` to export pages, or `deardayone --dry-run` to preview.").

(** [run_setup]; [notebooks] is what [discover_notebooks(data_dir)]
    returns and [journals] what [list_dayone_journals()] returns. *)
Definition run_setup (data_dir : string) (notebooks : list notebook)
    (journals : list string) : M unit :=
  print ("Scanning reMarkable notebooks..." ++ nl) ;;;
  match notebooks with
  | [] =>
      print "No handwritten notebooks found in reMarkable data." ;;;
      print ("  Looked in: " ++ data_dir) ;;;
      sys_exit 1
  | first :: _ =>
      print ("Found " ++ show (length notebooks) ++ " handwritten notebook(s):"
             ++ nl) ;;;
      list_notebooks data_dir 1 notebooks ;;;
      print "" ;;;
      lines <- gets stdin ;;
      idx <- select_number "Select notebook number: " (length notebooks) lines ;;
      let selected := default first (notebooks !! idx) in
      print (nl ++ "Selected: " ++ nb_name selected) ;;;
      journal <-
        match journals with
        | default_choice :: _ =>
            print (nl ++ "Day One journals:" ++ nl) ;;;
            list_journals 1 journals ;;;
            print "" ;;;
            lines <- gets stdin ;;
            jdx <- select_number "Select journal number: " (length journals) lines ;;
            ret (default default_choice (journals !! jdx))
        | [] =>
            print (nl ++ "Could not read Day One journals from database.") ;;;
            let default_journal := "Journal" in
            answer <- input ("Day One journal name [" ++ default_journal ++ "]: ") ;;
            match answer with
            | None => cancelled
            | Some l =>
                let journal := strip l in
                ret (if nonempty journal then journal else default_journal)
            end
        end ;;
      finish_setup selected journal
  end.

End Engine.

(** ** Day One journals *)

(** What the query [SELECT ZNAME FROM ZJOURNAL ORDER BY ZNAME] on the
    Day One database comes to: there is no database file, [sqlite3]
    raises an error, or the cursor yields the rows, whose one column is
    a name or [NULL]. *)
Inductive journal_db :=
| NoDatabase
| QueryFailed
| Rows (names : list (option string)).

(** [row[0] for row in cursor if row[0]] *)
Definition named_rows (rows : list (option string)) : list string :=
  omap (fun name => name ≫= fun s => if nonempty s then Some s else None) rows.

Definition list_dayone_journals (db : journal_db) : list string :=
  match db with
  | NoDatabase => []
  | Rows rows =>
      merge_sort String.le (elements (list_to_set (named_rows rows) : gset string))
  | QueryFailed => []
  end.

(** ** Entry point *)




(** ** Vocabulary of the statements *)



(** The stroke file an [rmc] invocation reads. *)
Definition conversion_input (e : event) : option string :=
  match e with
  | Spawn [_; "-t"; "svg"; rm_path; "-o"; _] _ => Some rm_path
  | _ => None
  end.

(** The stroke files a trace tried to convert, in order. *)
Definition attempted (l : list event) : list string := omap conversion_input l.

(** The body text of a publisher invocation. *)
Definition publish_body (e : event) : option string :=
  match e with
  | Spawn argv _ =>
      match reverse argv with
      | body_text :: "new" :: "--" :: _ => Some body_text
      | _ => None
      end
  | _ => None
  end.

(** The body texts a trace handed to the publisher, in order. *)
Definition published_bodies (l : list event) : list string := omap publish_body l.

(** The configurations a trace saved, in order. *)
Definition saves (l : list event) : list config :=
  omap (fun e => match e with Saved c => Some c | _ => None end) l.

Definition position (item : pending) : nat := item.1.1.1.
Definition page_of (item : pending) : string := item.1.1.2.
Definition rm_file_of (item : pending) : string := item.1.2.
Definition date_of (item : pending) : page_date := item.2.

(** The body text of the entry for [item]. *)
Definition entry_text (notebook_name : string) (item : pending) : string :=
  "Page " ++ show (S (position item)) ++ " of " ++ notebook_name.

(** The publisher's argument vector for [item]. *)
Definition entry_cmd (P : platform) (notebook_name journal : string)
    (item : pending) : list string :=
  dayone_cmd journal (strftime P (date_of item)) ["reMarkable"; notebook_name]
    (Some (joinpath (tmp_dir P) (page_of item ++ ".png")))
    (entry_text notebook_name item).

(** The progress line the export loop opens for [item]. *)
Definition progress_line (total : nat) (item : pending) : string :=
  "  Page " ++ show (S (position item)) ++ "/" ++ show total ++ ": ".

(** What the export loop prints when [item] fails with [e]. *)
Definition failure_line (e : exn) : string :=
  match e with
  | RuntimeError _ => "FAILED - " ++ exn_text e
  | _ => "FAILED - " ++ exn_name e ++ ": " ++ exn_text e
  end ++ nl.

(** What the export loop prints when [item] is exported. *)
Definition success_line (P : platform) (item : pending) : string :=
  ("OK (" ++ strftime P (date_of item) ++ ")") ++ nl.


(** The summary line of an export run. *)
Definition summary_line (n_exported n_errors : nat) : string :=
  ("Done! " ++ show n_exported ++ " page(s) exported, " ++ show n_errors
   ++ " error(s).") ++ nl.

(** [w] after the events [evs] and the output [outs]. *)
Definition after (evs : list event) (outs : list string) (w : world) : world :=
  World (config_home w) (store w) (stdin w)
        (stdout w ++ outs)%list (log w ++ evs)%list.









(** [m] leaves the configuration directory as it is. *)
Definition home_kept {A} (m : M A) : Prop :=
  forall w, config_home (m w).2 = config_home w.

(** The configuration a run finds on disk, when it is complete. *)
Definition previous_config (w : world) : option config :=
  match config_home w with
  | Some (Some (Json old)) => Some old
  | _ => None
  end.

(** The export records setup keeps when it selects [guid]. *)
Definition carried_pages (previous : option config) (guid : string) : list string :=
  match previous with
  | Some old =>
      if String.eqb (remarkable_notebook_guid old) guid
      then default [] (exported_pages old)
      else []
  | None => []
  end.

(** What [config.json] holds after the events [evs]: the last
    configuration saved, or what it held in [w]. *)
Definition persisted (evs : list event) (w : world)
    : option (option (body config)) :=
  match last (saves evs) with
  | Some c => Some (Some (Json c))
  | None => config_home w
  end.

(** [w] after the events [evs], saves included, and the output [outs]. *)
Definition reach (evs : list event) (outs : list string) (w : world) : world :=
  set_config_home (persisted evs w) (after evs outs w).

(** ** Sample data *)

(** A platform on which every tool succeeds, except that [rmc] rejects
    the stroke files listed in [bad]. *)
Definition sample_platform (bad : list string) : platform :=
  Platform "/Users/me" "/tmp/deardayone_k3"
    (fun _ argv =>
       match argv with
       | [_; "-t"; "svg"; rm_path; "-o"; _] =>
           if bool_decide (rm_path ∈ bad)
           then Completed 1 "" ("Traceback" ++ nl ++ "ValueError: bad block" ++ nl)
           else Completed 0 "" ""
       | _ => Completed 0 "5D1E" ""
       end)
    (fun d =>
       match d with
       | FromModified ms => "ms=" ++ pretty ms
       | FromMtime rm_file => "mtime of " ++ rm_file
       end).

(** The content descriptor whose page list is [pages]. *)
Definition pages_document (pages : list page_entry) : node :=
  File (Json (ContentDoc (Content (Some (CPagesDict (Some pages)))))).

(** A data directory [/data] with one notebook [nb] whose content
    descriptor lists [pages] and whose stroke files are [present]. *)
Definition sample_store (pages : list page_entry) (present : list string)
    : gmap string node :=
  <["/data/nb.metadata" := File (Json (MetadataDoc (Metadata (Some "Diary"))))]>
  (<["/data/nb.content" := pages_document pages]>
  (list_to_map ((fun page_id => ("/data/nb/" ++ page_id ++ ".rm", File Opaque))
                  <$> present))).

Definition sample_config (done : option (list string)) : config :=
  Config "nb" "Diary" "Journal" done.

Definition sample_world (cfg : option (option (body config)))
    (pages : list page_entry) (present : list string) : world :=
  World cfg (sample_store pages present) [] [] [].

Definition page (page_id : string) (ms : string) : page_entry :=
  PageEntry (Some page_id) (Some (JStr ms)) None.

(** A platform on which every program succeeds and says nothing. *)
Definition steady_platform : platform :=
  Platform "/Users/me" "/tmp/deardayone_k3"
    (fun _ _ => Completed 0 "" "")
    (fun d =>
       match d with
       | FromModified ms => "ms=" ++ pretty ms
       | FromMtime rm_file => "mtime of " ++ rm_file
       end).

(** A world at the terminal: no configuration, an empty data
    directory, and [lines] waiting on standard input. *)
Definition terminal_world (lines : list string) : world :=
  World None ∅ lines [] [].

Definition sample_notebooks : list notebook :=
  [Notebook "nb" "Diary" "" 2 2; Notebook "nb2" "Work" "" 1 1].

(** ** Vocabulary of the further statements *)




(** [m] only talks to the terminal: it leaves the configuration, the
    data directory and the log alone, and it returns or exits with
    status 0. *)
Definition terminal_only {A} (m : M A) : Prop :=
  forall w,
    config_home (m w).2 = config_home w /\
    store (m w).2 = store w /\
    log (m w).2 = log w /\
    ((exists a, (m w).1 = Ok a) \/ (m w).1 = Exit 0).

(** An answer that [select_number] turns down. *)
Definition rejected (count : nat) (answer : string) : Prop :=
  match int_of_str (strip answer) with
  | Some n => ~ (1 <= n <= Z.of_nat count)
  | None => True
  end.

(** [m] saves one configuration and returns, or gives up (input ran
    out, or [config.json] cannot be decoded) and leaves the
    configuration and the log as they were; the data directory is
    untouched. *)
Definition saves_or_keeps (m : M unit) : Prop :=
  forall w,
    store (m w).2 = store w /\
    ((m w).1 = Ok tt /\
     (exists c, log (m w).2 = (log w ++ [Saved c])%list /\
                config_home (m w).2 = Some (Some (Json c))) \/
     ((m w).1 = Exit 0 \/ (m w).1 = Raise JSONDecodeError) /\
     log (m w).2 = log w /\ config_home (m w).2 = config_home w).

(** [s] consists of blanks only. *)
Fixpoint blank (s : string) : bool :=
  match s with
  | EmptyString => true
  | String c s' => isspace c && blank s'
  end.

(** [s] has no line boundary. *)
Fixpoint one_line (s : string) : bool :=
  match s with
  | EmptyString => true
  | String c s' => negb (is_linebreak c) && one_line s'
  end.

(** The line [convert_rm_to_png] reports when [rmc] fails with the
    diagnostic text [err]. *)
Definition rmc_error_line (err : string) : string :=
  default "unknown error" (last (splitlines (strip err))).



(** [config.json], when there is one, holds a configuration. *)
Definition decodable (h : option (option (body config))) : Prop :=
  match h with
  | Some (Some Empty) | Some (Some Opaque) => False
  | _ => True
  end.


(** * Properties *)

Local Open Scope list_scope.

(** ** Page List Resolver: timestamps *)


Lemma get_page_list_pages (data_dir guid : string)
    (pages : list page_entry) (w : world) :
  store w !! joinpath data_dir (guid ++ ".content") = Some (pages_document pages) ->
  get_page_list data_dir guid w =
    (match resolve_pages pages with inl e => Raise e | inr infos => Ok infos end, w).
Proof.
  intros Hfile. unfold get_page_list, bind, gets. rewrite Hfile. simpl.
  destruct (resolve_pages pages); reflexivity.
Qed.


(** The resolved page list is the declared list without the entries
    that have no identifier, in the declared order. *)
Lemma resolved_ids_in_declared_order (pages : list page_entry)
    (infos : list page_info) :
  resolve_pages pages = inr infos -> info_id <$> infos = omap entry_id pages.
Proof.
  revert infos. induction pages as [|p rest IH]; intros infos; simpl.
  - intros [= <-]. reflexivity.
  - destruct (entry_id p) as [page_id|]; [|apply IH].
    destruct (to_modified_ms _) as [e|ms]; [discriminate|].
    destruct (resolve_pages rest) as [e|later]; [discriminate|].
    intros [= <-]. simpl. f_equal. apply IH. reflexivity.
Qed.


(** ** Destination Publisher: the argument vector *)

(** C9.  For all inputs the argument vector is the binary, then the
    scalar options ([--journal], [--date]), then the variadic options
    ([--tags] with its values, [--attachments] with its value), then the
    terminator [--], then the verb [new] and the body text as the last
    two words; and this vector is what the publisher runs. *)
Theorem dayone_cmd_layout (P : platform) (journal date_str : string)
    (tags : list string) (attachment_path : option string) (body_text : string) :
  let scalars :=
    ((if nonempty journal then ["--journal"; journal] else []) ++
     (if nonempty date_str then ["--date"; date_str] else []))%list in
  let variadic :=
    ((match tags with [] => [] | _ => "--tags" :: tags end) ++
     (match attachment_path with
      | Some a => ["--attachments"; a]
      | None => []
      end))%list in
  let cmd := dayone_cmd journal date_str tags attachment_path body_text in
  cmd = ([DAYONE_BIN] ++ scalars ++ variadic ++ ["--"] ++ ["new"; body_text])%list /\
  forall w,
    log (create_dayone_entry P journal date_str tags attachment_path body_text w).2
    = (log w ++ [Spawn cmd (subprocess_run P (log w) cmd)])%list.
Proof.
  simpl. split.
  - unfold dayone_cmd.
    destruct (nonempty journal), (nonempty date_str), tags, attachment_path;
      repeat rewrite <- app_assoc; reflexivity.
  - intros w. unfold create_dayone_entry, bind, run.
    destruct (subprocess_run P (log w) _) as [rc out err|cls msg]; simpl;
      [|reflexivity].
    destruct (negb (rc =? 0)); reflexivity.
Qed.

(** ** Export State Store: how a save reaches the disk *)

Lemma save_config_ok (P : platform) (c : config) (w : world) :
  save_config P c w
  = (Ok tt, add_log (Saved c) (set_config_home (Some (Some (Json c))) w)).
Proof.
  unfold save_config, save_config_steps, sequence, bind, mkdir_config_dir,
    open_truncate, dump_and_close, emit, modify, gets, bind, ret.
  destruct w as [h st i o l]. simpl. destruct h; reflexivity.
Qed.

(** C3, as the code has it.  A save always completes: it creates the
    configuration directory when it is missing and leaves the saved
    configuration in [config.json], where a later load finds it.  It
    writes in place, in three file operations: make the directory, open
    the file for writing, which empties it, then write the document.  A
    save cut short after the second operation leaves an empty file,
    which a later load rejects; no temporary file and no rename are
    involved. *)
Theorem save_config_in_place (P : platform) (c : config) (w : world) :
  save_config P c w
    = (Ok tt, add_log (Saved c) (set_config_home (Some (Some (Json c))) w)) /\
  load_config (save_config P c w).2 = (Ok (Some c), (save_config P c w).2) /\
  save_config_steps P c = [mkdir_config_dir; open_truncate P; dump_and_close c] /\
  save_config_interrupted P 0 c w = (Ok tt, w) /\
  (save_config_interrupted P 1 c w).2
    = match config_home w with
      | None => set_config_home (Some None) w
      | Some _ => w
      end /\
  (save_config_interrupted P 2 c w).2 = set_config_home (Some (Some Empty)) w /\
  (load_config (save_config_interrupted P 2 c w).2).1 = Raise JSONDecodeError /\
  (forall k, (3 <= k)%nat -> save_config_interrupted P k c w = save_config P c w).
Proof.
  split; [apply save_config_ok|].
  split; [rewrite save_config_ok; reflexivity|].
  split; [reflexivity|].
  split; [reflexivity|].
  destruct w as [h st i o l].
  split; [destruct h; reflexivity|].
  split; [destruct h; reflexivity|].
  split; [destruct h; reflexivity|].
  intros k Hk. unfold save_config_interrupted, save_config.
  rewrite take_ge; [reflexivity|simpl; lia].
Qed.

(** C3, counterexample.  With a complete configuration [old] on disk, a
    save of [new] that stops after its second file operation leaves a
    file that is neither [old] nor [new]: the next load raises. *)
Lemma save_config_not_crash_safe :
  let P := sample_platform [] in
  let old := sample_config (Some ["A"]) in
  let new := sample_config (Some ["A"; "B"]) in
  let w := sample_world (Some (Some (Json old))) [] [] in
  load_config w = (Ok (Some old), w) /\
  config_home (save_config_interrupted P 2 new w).2 = Some (Some Empty) /\
  (load_config (save_config_interrupted P 2 new w).2).1 = Raise JSONDecodeError.
Proof. vm_compute. auto. Qed.

(** ** Export Orchestrator: one page *)

Section Orchestrator.

Variable P : platform.

Lemma after_nil (w : world) : after [] [] w = w.
Proof. destruct w. unfold after. simpl. rewrite !app_nil_r. reflexivity. Qed.

Lemma after_after (evs1 evs2 : list event) (outs1 outs2 : list string) (w : world) :
  after evs2 outs2 (after evs1 outs1 w) = after (evs1 ++ evs2) (outs1 ++ outs2) w.
Proof. unfold after. simpl. rewrite !app_assoc. reflexivity. Qed.

Lemma conversion_input_entry_cmd name journal item r :
  conversion_input (Spawn (entry_cmd P name journal item) r) = None.
Proof.
  unfold entry_cmd, dayone_cmd.
  destruct (nonempty journal), (nonempty (strftime P (date_of item))); reflexivity.
Qed.

Lemma publish_body_entry_cmd name journal item r :
  publish_body (Spawn (entry_cmd P name journal item) r) = Some (entry_text name item).
Proof.
  unfold entry_cmd, dayone_cmd.
  destruct (nonempty journal), (nonempty (strftime P (date_of item))); reflexivity.
Qed.

Lemma add_log_after (e : event) (w : world) : add_log e w = after [e] [] w.
Proof. destruct w. unfold add_log, after. simpl. rewrite app_nil_r. reflexivity. Qed.

Lemma add_stdout_after (o : string) (w : world) : add_stdout o w = after [] [o] w.
Proof. destruct w. unfold add_stdout, after. simpl. rewrite app_nil_r. reflexivity. Qed.

#[local] Arguments conversion_input : simpl never.
#[local] Arguments publish_body : simpl never.

Ltac to_after :=
  rewrite ?add_log_after, ?add_stdout_after, ?after_after; simpl app.

(** The [try] block up to the publisher: it always comes back, it only
    runs tools, it starts with the conversion of the page's stroke file,
    and it reaches the publisher at most once, as its last step. *)
Lemma attempt_spec (name journal : string) (item : pending) (w : world) :
  exists r evs,
    attempt P name journal item w = (Ok r, after evs [] w) /\
    saves evs = [] /\
    attempted evs = [rm_file_of item] /\
    (published_bodies evs = [] \/ published_bodies evs = [entry_text name item]) /\
    match r with
    | None =>
        published_bodies evs = [entry_text name item] /\
        exists pre out err,
          evs = pre ++ [Spawn (entry_cmd P name journal item) (Completed 0 out err)]
    | Some e =>
        (exists msg, e = RuntimeError msg) \/ (exists cls msg, e = SpawnError cls msg)
    end.
Proof.
  destruct item as [[[i page_id] rm_file] page_date].
  unfold attempt, try_except, convert_rm_to_png, bind, run, emit, modify, raise, ret.
  set (svg := (rsplit_dot_head _ ++ ".svg")%string).
  set (png := joinpath (tmp_dir P) _).
  destruct (subprocess_run P (log w) _) as [rc1 o1 e1|cls1 m1] eqn:H1.
  2:{ eexists _, _. split; [to_after; reflexivity|].
      unfold saves, attempted, published_bodies, conversion_input, publish_body.
      simpl. eauto 10. }
  destruct (negb (rc1 =? 0)).
  { eexists _, _. split; [to_after; reflexivity|].
      unfold saves, attempted, published_bodies, conversion_input, publish_body.
      simpl. eauto 10. }
  simpl log.
  destruct (subprocess_run P (log w ++ _) [INKSCAPE_BIN; _; _; _])
    as [rc2 o2 e2|cls2 m2] eqn:H2.
  2:{ eexists _, _. split; [to_after; reflexivity|].
      unfold saves, attempted, published_bodies, conversion_input, publish_body.
      simpl. eauto 10. }
  destruct (negb (rc2 =? 0)).
  { eexists _, _. split; [to_after; reflexivity|].
      unfold saves, attempted, published_bodies, conversion_input, publish_body.
      simpl. eauto 10. }
  unfold create_dayone_entry, bind, run, raise, ret. simpl log.
  change (dayone_cmd _ _ _ _ _)
    with (entry_cmd P name journal (i, page_id, rm_file, page_date)).
  set (cmd := entry_cmd P name journal (i, page_id, rm_file, page_date)).
  destruct (subprocess_run P _ cmd) as [rc3 o3 e3|cls3 m3] eqn:H3.
  2:{ eexists _, _. split; [to_after; reflexivity|].
      unfold saves, attempted, published_bodies. simpl omap.
      subst cmd. rewrite conversion_input_entry_cmd, publish_body_entry_cmd.
      unfold conversion_input, publish_body. simpl. eauto 10. }
  destruct (rc3 =? 0) eqn:Hrc3; simpl negb; cbv iota.
  - apply Z.eqb_eq in Hrc3. subst rc3.
    eexists _, _. split; [to_after; reflexivity|].
    unfold saves, attempted, published_bodies. simpl omap.
    subst cmd. rewrite conversion_input_entry_cmd, publish_body_entry_cmd.
    unfold conversion_input, publish_body. simpl. repeat split; auto.
    eexists [_; _; _], _, _. reflexivity.
  - eexists _, _. split; [to_after; reflexivity|].
    unfold saves, attempted, published_bodies. simpl omap.
    subst cmd. rewrite conversion_input_entry_cmd, publish_body_entry_cmd.
    unfold conversion_input, publish_body. simpl. eauto 10.
Qed.

Lemma saves_app (l1 l2 : list event) : saves (l1 ++ l2) = saves l1 ++ saves l2.
Proof. apply omap_app. Qed.

Lemma attempted_app (l1 l2 : list event) :
  attempted (l1 ++ l2) = attempted l1 ++ attempted l2.
Proof. apply omap_app. Qed.

Lemma published_bodies_app (l1 l2 : list event) :
  published_bodies (l1 ++ l2) = published_bodies l1 ++ published_bodies l2.
Proof. apply omap_app. Qed.

Lemma reach_nil (w : world) : reach [] [] w = w.
Proof.
  unfold reach, persisted. simpl. rewrite after_nil. destruct w. reflexivity.
Qed.

Lemma reach_unsaved (evs : list event) (outs : list string) (w : world) :
  saves evs = [] -> reach evs outs w = after evs outs w.
Proof. intros H. unfold reach, persisted. rewrite H. reflexivity. Qed.

Lemma reach_reach (evs1 evs2 : list event) (outs1 outs2 : list string) (w : world) :
  reach evs2 outs2 (reach evs1 outs1 w) = reach (evs1 ++ evs2) (outs1 ++ outs2) w.
Proof.
  unfold reach, persisted, set_config_home, after. simpl.
  rewrite saves_app, !app_assoc. f_equal.
  destruct (saves evs2) as [|c l] using rev_ind.
  - rewrite app_nil_r. reflexivity.
  - rewrite app_assoc, !last_snoc. reflexivity.
Qed.

Lemma export_page_spec (total : nat) (name journal : string) (item : pending)
    (st : progress) (w : world) :
  exists r evs,
    attempt P name journal item (add_stdout (progress_line total item) w)
      = (Ok r, after evs [] (add_stdout (progress_line total item) w)) /\
    saves evs = [] /\
    attempted evs = [rm_file_of item] /\
    (published_bodies evs = [] \/ published_bodies evs = [entry_text name item]) /\
    match r with
    | None =>
        (published_bodies evs = [entry_text name item] /\
         exists pre out err,
           evs = pre ++ [Spawn (entry_cmd P name journal item) (Completed 0 out err)]) /\
        let exported' := {[page_of item]} ∪ exported st in
        let config' := with_exported_pages (config_now st) (elements exported') in
        export_page P total name journal item st w
        = (Ok (Progress exported' config' (S (exported_count st)) (error_count st)),
           reach (evs ++ [Saved config'])
                 [progress_line total item; success_line P item] w)
    | Some e =>
        export_page P total name journal item st w
        = (Ok (Progress (exported st) (config_now st)
                        (exported_count st) (S (error_count st))),
           reach evs [progress_line total item; failure_line e] w)
    end.
Proof.
  destruct (attempt_spec name journal item (add_stdout (progress_line total item) w))
    as (r & evs & Hat & Hsaves & Hatt & Hpub & Hr).
  exists r, evs. repeat (split; [assumption|]).
  destruct item as [[[i page_id] rm_file] page_date].
  unfold export_page, bind, print_noeol, modify.
  change (add_stdout _ w) with (add_stdout (progress_line total (i, page_id, rm_file, page_date)) w).
  rewrite Hat. destruct r as [e|].
  - rewrite reach_unsaved by assumption.
    unfold record_failure, bind, print, modify, ret.
    destruct e; to_after; rewrite app_nil_r; reflexivity.
  - split; [assumption|]. simpl.
    unfold try_except, bind. rewrite save_config_ok.
    unfold print, modify, ret, reach, persisted. rewrite saves_app, Hsaves. simpl.
    unfold after, add_stdout, add_log, set_config_home. simpl.
    rewrite <- !app_assoc. reflexivity.
Qed.

(** ** Export Orchestrator: the loop *)

Lemma export_loop_app (total : nat) (name journal : string)
    (pre post : list pending) (st : progress) (w : world) :
  export_loop P total name journal (pre ++ post) st w
  = match export_loop P total name journal pre st w with
    | (Ok st1, w1) => export_loop P total name journal post st1 w1
    | (Exit c, w1) => (Exit c, w1)
    | (Raise e, w1) => (Raise e, w1)
    end.
Proof.
  revert st w. induction pre as [|item pre IH]; intros st w; simpl.
  - reflexivity.
  - unfold bind.
    destruct (export_page P total name journal item st w) as [[st1|c|e] w1];
      [apply IH|reflexivity|reflexivity].
Qed.

(** The loop always runs to its end.  It tries every element of
    [to_export] once, in order; [pub] are the elements that reached the
    publisher and [ok] the ones that were exported and saved. *)
Lemma export_loop_spec (total : nat) (name journal : string)
    (to_export : list pending) (st : progress) (w : world) :
  exists st' evs outs pub ok,
    export_loop P total name journal to_export st w = (Ok st', reach evs outs w) /\
    attempted evs = rm_file_of <$> to_export /\
    sublist pub to_export /\
    published_bodies evs = entry_text name <$> pub /\
    sublist ok pub /\
    length (saves evs) = length ok /\
    exported st' = list_to_set (page_of <$> ok) ∪ exported st /\
    exported_count st' = (exported_count st + length ok)%nat /\
    (error_count st' + length ok = error_count st + length to_export)%nat /\
    length outs = (2 * length to_export)%nat /\
    Forall (fun s => is_Some (exported_pages s)) (saves evs) /\
    head (saves evs)
    = (fun item => with_exported_pages (config_now st)
                     (elements ({[page_of item]} ∪ exported st))) <$> head ok /\
    (saves evs = [] /\ config_now st' = config_now st \/
     last (saves evs) = Some (config_now st') /\
     config_now st'
     = with_exported_pages (config_now st) (elements (exported st'))).
Proof.
  revert st w. induction to_export as [|item rest IH]; intros st w.
  - exists st, [], [], [], []. simpl. rewrite reach_nil.
    split_and!; auto; try constructor; try lia. set_solver.
  - simpl export_loop. unfold bind.
    destruct (export_page_spec total name journal item st w)
      as (r & evs1 & _ & Hs1 & Ha1 & Hp1 & Hr).
    destruct r as [e|].
    + rewrite Hr.
      destruct (IH (Progress (exported st) (config_now st) (exported_count st)
                             (S (error_count st)))
                   (reach evs1 [progress_line total item; failure_line e] w))
        as (st' & evs2 & outs2 & pub & ok & Hrun & Hatt & Hsub & Hpub & Hok
            & Hlen & Hexp & Hcnt & Herr & Houts & Hsome & Hhead & Hcfg).
      simpl in Hexp, Hcnt, Herr, Hcfg, Hhead.
      rewrite Hrun, reach_reach.
      assert (Hsaves : saves (evs1 ++ evs2) = saves evs2)
        by (rewrite saves_app, Hs1; reflexivity).
      destruct Hp1 as [Hp1|Hp1].
      * exists st', (evs1 ++ evs2), ([progress_line total item; failure_line e] ++ outs2),
          pub, ok.
        rewrite attempted_app, published_bodies_app, Ha1, Hp1, Hatt, Hpub, Hsaves.
        simpl. split_and!; auto; try lia. apply sublist_cons. assumption.
      * exists st', (evs1 ++ evs2), ([progress_line total item; failure_line e] ++ outs2),
          (item :: pub), ok.
        rewrite attempted_app, published_bodies_app, Ha1, Hp1, Hatt, Hpub, Hsaves.
        simpl. split_and!; auto; try lia.
        -- apply sublist_skip. assumption.
        -- apply sublist_cons. assumption.
    + destruct Hr as [[Hp1' _] Hr]. simpl in Hr. rewrite Hr.
      set (exported' := {[page_of item]} ∪ exported st) in *.
      set (config' := with_exported_pages (config_now st) (elements exported')) in *.
      destruct (IH (Progress exported' config' (S (exported_count st)) (error_count st))
                   (reach (evs1 ++ [Saved config'])
                          [progress_line total item; success_line P item] w))
        as (st' & evs2 & outs2 & pub & ok & Hrun & Hatt & Hsub & Hpub & Hok
            & Hlen & Hexp & Hcnt & Herr & Houts & Hsome & Hhead & Hcfg).
      simpl in Hexp, Hcnt, Herr, Hcfg.
      rewrite Hrun, reach_reach.
      exists st', ((evs1 ++ [Saved config']) ++ evs2),
        ([progress_line total item; success_line P item] ++ outs2),
        (item :: pub), (item :: ok).
      rewrite !attempted_app, !published_bodies_app, !saves_app, Ha1, Hp1', Hs1,
        Hatt, Hpub.
      unfold attempted at 1, published_bodies at 1, saves at 1. simpl.
      split_and!; auto; try lia.
      * apply sublist_skip. assumption.
      * apply sublist_skip. assumption.
      * rewrite Hexp. subst exported'. set_solver.
      * right. destruct Hcfg as [[Hnil Hc]|[Hlast Hc]].
        -- rewrite Hnil. simpl. rewrite Hc. split; [reflexivity|].
           subst config'. unfold with_exported_pages. simpl.
           rewrite Hexp.
           assert (ok = []) as -> by (destruct ok; [reflexivity|rewrite Hnil in Hlen; discriminate]).
           simpl. do 2 f_equal. f_equal. set_solver.
        -- split.
           ++ destruct (saves evs2) as [|c l]; [discriminate|].
              simpl in *. assumption.
           ++ rewrite Hc. reflexivity.
Qed.

(** ** Export Orchestrator: the diffing stage *)




(** ** Export Orchestrator: the whole run *)











(** The loop over [pre ++ item :: post], cut before and after [item]. *)
Lemma export_loop_split (total : nat) (name journal : string)
    (pre : list pending) (item : pending) (post : list pending)
    (st : progress) (w : world) :
  exists st1 evs1 outs1 r tools st2 w2 st3 evs3 outs3,
    let w1 := reach evs1 outs1 w in
    export_loop P total name journal pre st w = (Ok st1, w1) /\
    attempt P name journal item (add_stdout (progress_line total item) w1)
      = (Ok r, after tools [] (add_stdout (progress_line total item) w1)) /\
    export_page P total name journal item st1 w1 = (Ok st2, w2) /\
    export_loop P total name journal post st2 w2 = (Ok st3, reach evs3 outs3 w2) /\
    export_loop P total name journal (pre ++ item :: post) st w
      = (Ok st3, reach evs3 outs3 w2) /\
    saves tools = [] /\
    attempted evs1 = rm_file_of <$> pre /\
    attempted tools = [rm_file_of item] /\
    attempted evs3 = rm_file_of <$> post /\
    exported st ⊆ exported st1 /\
    exported st2 ⊆ exported st3 /\
    (exported_count st1 + error_count st1
     = exported_count st + error_count st + length pre)%nat /\
    (exported_count st3 + error_count st3
     = exported_count st2 + error_count st2 + length post)%nat /\
    (exported_count st2 <= exported_count st3)%nat /\
    match r with
    | None =>
        let exported' := {[page_of item]} ∪ exported st1 in
        let config' := with_exported_pages (config_now st1) (elements exported') in
        (exists before out err,
           tools = before ++ [Spawn (entry_cmd P name journal item)
                                    (Completed 0 out err)]) /\
        st2 = Progress exported' config' (S (exported_count st1)) (error_count st1) /\
        w2 = reach (tools ++ [Saved config'])
                   [progress_line total item; success_line P item] w1
    | Some e =>
        st2 = Progress (exported st1) (config_now st1)
                       (exported_count st1) (S (error_count st1)) /\
        w2 = reach tools [progress_line total item; failure_line e] w1
    end.
Proof.
  destruct (export_loop_spec total name journal pre st w)
    as (st1 & evs1 & outs1 & pub1 & ok1 & Hrun1 & Hatt1 & _ & _ & _
        & _ & Hexp1 & Hcnt1 & Herr1 & _).
  set (w1 := reach evs1 outs1 w) in *.
  destruct (export_page_spec total name journal item st1 w1)
    as (r & tools & Hat & Hsaves & Hatt & _ & Hr).
  assert (Hpage : exists st2 w2,
    export_page P total name journal item st1 w1 = (Ok st2, w2) /\
    match r with
    | None =>
        let exported' := {[page_of item]} ∪ exported st1 in
        let config' := with_exported_pages (config_now st1) (elements exported') in
        (exists before out err,
           tools = before ++ [Spawn (entry_cmd P name journal item)
                                    (Completed 0 out err)]) /\
        st2 = Progress exported' config' (S (exported_count st1)) (error_count st1) /\
        w2 = reach (tools ++ [Saved config'])
                   [progress_line total item; success_line P item] w1
    | Some e =>
        st2 = Progress (exported st1) (config_now st1)
                       (exported_count st1) (S (error_count st1)) /\
        w2 = reach tools [progress_line total item; failure_line e] w1
    end).
  { destruct r as [e|].
    - eexists _, _. split; [exact Hr|]. split; reflexivity.
    - destruct Hr as [[_ Hlast] Hr]. eexists _, _. split; [exact Hr|].
      split; [exact Hlast|]. split; reflexivity. }
  destruct Hpage as (st2 & w2 & Hpage & Hcase).
  destruct (export_loop_spec total name journal post st2 w2)
    as (st3 & evs3 & outs3 & pub3 & ok3 & Hrun3 & Hatt3 & _ & _ & _
        & _ & Hexp3 & Hcnt3 & Herr3 & _).
  exists st1, evs1, outs1, r, tools, st2, w2, st3, evs3, outs3.
  cbv zeta. fold w1.
  split_and!; auto; try lia.
  - rewrite export_loop_app, Hrun1. simpl. unfold bind. rewrite Hpage. exact Hrun3.
  - rewrite Hexp1. set_solver.
  - rewrite Hexp3. set_solver.
Qed.

Lemma reach_log (evs : list event) (outs : list string) (w : world) :
  log (reach evs outs w) = log w ++ evs.
Proof. reflexivity. Qed.


Lemma reach_home_saved (tools : list event) (c : config) (outs : list string)
    (w : world) :
  config_home (reach (tools ++ [Saved c]) outs w) = Some (Some (Json c)).
Proof.
  unfold reach, persisted. simpl. rewrite saves_app.
  change (saves [Saved c]) with [c]. rewrite last_snoc. reflexivity.
Qed.

Lemma reach_home_unsaved (tools : list event) (outs : list string) (w : world) :
  saves tools = [] -> config_home (reach tools outs w) = config_home w.
Proof. intros H. unfold reach, persisted. simpl. rewrite H. reflexivity. Qed.

(** ** The claims about the orchestrator *)


(** C2.  In the export loop over [pre ++ item :: post], when the
    conversion and the publication of [item] both succeed, the last
    thing the page does to the outside is the publisher call that
    returned 0 followed at once by the save of the configuration whose
    exported pages are the exported set with the page added; the file
    on disk then holds that configuration, and everything the later
    pages do comes after it.  When the conversion or the publication
    fails, the page saves nothing: the file on disk, the exported set
    and the configuration in memory are as they were before the page. *)
Theorem save_follows_publish (total : nat) (name journal : string)
    (pre : list pending) (item : pending) (post : list pending)
    (st : progress) (w : world) :
  exists st1 w1 r tools st2 w2 st3 w3 later,
    export_loop P total name journal pre st w = (Ok st1, w1) /\
    attempt P name journal item (add_stdout (progress_line total item) w1)
      = (Ok r, after tools [] (add_stdout (progress_line total item) w1)) /\
    export_page P total name journal item st1 w1 = (Ok st2, w2) /\
    export_loop P total name journal post st2 w2 = (Ok st3, w3) /\
    export_loop P total name journal (pre ++ item :: post) st w = (Ok st3, w3) /\
    log w3 = log w2 ++ later /\
    saves tools = [] /\
    match r with
    | None =>
        let config' :=
          with_exported_pages (config_now st1)
            (elements ({[page_of item]} ∪ exported st1)) in
        (exists before out err,
           tools = before ++ [Spawn (entry_cmd P name journal item)
                                    (Completed 0 out err)]) /\
        log w2 = log w1 ++ tools ++ [Saved config'] /\
        config_home w2 = Some (Some (Json config')) /\
        exported st2 = {[page_of item]} ∪ exported st1 /\
        config_now st2 = config'
    | Some e =>
        log w2 = log w1 ++ tools /\
        config_home w2 = config_home w1 /\
        exported st2 = exported st1 /\
        config_now st2 = config_now st1
    end.
Proof.
  destruct (export_loop_split total name journal pre item post st w)
    as (st1 & evs1 & outs1 & r & tools & st2 & w2 & st3 & evs3 & outs3
        & Hpre & Hat & Hpage & Hpost & Hall & Hsaves & _ & _ & _ & _ & _ & _ & _
        & _ & Hcase).
  exists st1, (reach evs1 outs1 w), r, tools, st2, w2, st3, (reach evs3 outs3 w2), evs3.
  split_and!; auto.
  destruct r as [e|].
  - destruct Hcase as [-> ->]. rewrite reach_home_unsaved by assumption.
    rewrite reach_log. auto.
  - destruct Hcase as (Hlast & -> & ->). cbv zeta.
    rewrite reach_home_saved. split_and!; auto.
Qed.





End Orchestrator.

(** ** Setup *)

Section Setup.

Variable P : platform.

Lemma bind_ok {A B} (m : M A) (k : A -> M B) (w w' : world) (b : B) :
  bind m k w = (Ok b, w') ->
  exists a w1, m w = (Ok a, w1) /\ k a w1 = (Ok b, w').
Proof.
  unfold bind. destruct (m w) as [[a|c|e] w1]; try discriminate. eauto.
Qed.

Lemma bind_home {A B} (m : M A) (k : A -> M B) :
  home_kept m -> (forall a, home_kept (k a)) -> home_kept (bind m k).
Proof.
  intros Hm Hk w. unfold bind. specialize (Hm w).
  destruct (m w) as [[a|c|e] w1]; simpl in *; [|assumption|assumption].
  rewrite Hk. assumption.
Qed.

Lemma ret_home {A} (a : A) : home_kept (ret a).
Proof. intros w. reflexivity. Qed.

Lemma print_home (s : string) : home_kept (print s).
Proof. intros w. reflexivity. Qed.

Lemma sys_exit_home {A} (code : Z) : home_kept (@sys_exit A code).
Proof. intros w. reflexivity. Qed.

Lemma cancelled_home {A} : home_kept (@cancelled A).
Proof. apply bind_home; [apply print_home|intros; apply sys_exit_home]. Qed.

Lemma input_home (prompt : string) : home_kept (input prompt).
Proof.
  intros w. unfold input, bind, print_noeol, modify, gets. simpl.
  destruct (stdin w); reflexivity.
Qed.

Lemma select_number_home (prompt : string) (count : nat) (lines : list string) :
  home_kept (select_number prompt count lines).
Proof.
  induction lines as [|l rest IH]; simpl.
  - apply bind_home; [apply input_home|intros; apply cancelled_home].
  - apply bind_home; [apply input_home|]. intros [answer|]; [|apply cancelled_home].
    destruct (int_of_str (strip answer)) as [n|].
    + destruct (_ && _); [apply ret_home|].
      apply bind_home; [apply print_home|intros; apply IH].
    + apply bind_home; [apply print_home|intros; apply IH].
Qed.

Lemma get_folder_name_home (data_dir parent_guid : string) :
  home_kept (get_folder_name data_dir parent_guid).
Proof.
  intros w. unfold get_folder_name.
  destruct (_ || _); [reflexivity|].
  unfold bind, gets. simpl.
  destruct (store w !! _) as [[|[| |[c|m]]]|]; reflexivity.
Qed.

Lemma list_notebooks_home (data_dir : string) (i : nat) (notebooks : list notebook) :
  home_kept (list_notebooks data_dir i notebooks).
Proof.
  revert i. induction notebooks as [|nb rest IH]; intros i; simpl.
  - apply ret_home.
  - apply bind_home; [apply get_folder_name_home|]. intros folder.
    apply bind_home; [apply print_home|intros; apply IH].
Qed.

Lemma list_journals_home (i : nat) (journals : list string) :
  home_kept (list_journals i journals).
Proof.
  revert i. induction journals as [|j rest IH]; intros i; simpl.
  - apply ret_home.
  - apply bind_home; [apply print_home|intros; apply IH].
Qed.

Lemma stepped_home {A} (m : M A) (w w1 : world) (a : result A) :
  home_kept m -> m w = (a, w1) -> config_home w1 = config_home w.
Proof. intros Hm Hrun. specialize (Hm w). rewrite Hrun in Hm. exact Hm. Qed.

(** What [finish_setup] leaves on disk. *)
Lemma finish_setup_saves (selected : notebook) (journal : string) (w w' : world) :
  finish_setup P selected journal w = (Ok tt, w') ->
  config_home w'
  = Some (Some (Json (Config (nb_guid selected) (nb_name selected) journal
                             (Some (carried_pages (previous_config w)
                                                  (nb_guid selected)))))).
Proof.
  intros Hrun. unfold finish_setup in Hrun.
  apply bind_ok in Hrun as (existing & w1 & Hload & Hrun).
  assert (Hex : existing = previous_config w /\ w1 = w).
  { revert Hload. unfold load_config, previous_config, bind, gets, ret, raise.
    destruct (config_home w) as [[[| |old]|]|]; simpl; intros [= <- <-] || discriminate;
      auto. }
  destruct Hex as [-> ->].
  apply bind_ok in Hrun as ([] & w2 & H2 & Hrun).
  assert (E2 : config_home w2 = config_home w).
  { refine (stepped_home _ _ _ _ _ H2).
    destruct (match previous_config w with Some _ => _ | None => _ end);
      [apply print_home|apply ret_home]. }
  apply bind_ok in Hrun as ([] & w3 & H3 & Hrun).
  rewrite save_config_ok in H3. injection H3 as <-.
  assert (E4 : config_home w' = config_home
            (add_log (Saved (Config (nb_guid selected) (nb_name selected) journal
               (Some (if match previous_config w with
                         | Some old => String.eqb (remarkable_notebook_guid old)
                                         (nb_guid selected)
                         | None => false
                         end
                      then default [] (previous_config w ≫= exported_pages)
                      else []))))
               (set_config_home (Some (Some (Json (Config (nb_guid selected)
                  (nb_name selected) journal
                  (Some (if match previous_config w with
                            | Some old => String.eqb (remarkable_notebook_guid old)
                                            (nb_guid selected)
                            | None => false
                            end
                         then default [] (previous_config w ≫= exported_pages)
                         else [])))))) w2))).
  { refine (stepped_home _ _ _ _ _ Hrun).
    repeat (apply bind_home; [apply print_home|intros _]). apply print_home. }
  rewrite E4. simpl. unfold carried_pages.
  destruct (previous_config w) as [old|]; [|reflexivity].
  simpl. destruct (String.eqb _ _); reflexivity.
Qed.

(** C8.  When setup runs to its end it has selected one of the
    notebooks offered and saved a configuration for it.  If a complete
    configuration was on disk before and its notebook identifier is the
    selected one, the saved exported pages are the ones of that
    configuration, unchanged (none when it had no such field); if the
    identifier differs, or no configuration file existed, the saved
    list of exported pages is empty. *)
Theorem setup_carries_exported_pages (data_dir : string)
    (notebooks : list notebook) (journals : list string) (w w' : world) :
  run_setup P data_dir notebooks journals w = (Ok tt, w') ->
  exists selected journal,
    selected ∈ notebooks /\
    config_home w'
    = Some (Some (Json (Config (nb_guid selected) (nb_name selected) journal
                               (Some (carried_pages (previous_config w)
                                                    (nb_guid selected)))))) /\
    (forall old,
       previous_config w = Some old ->
       remarkable_notebook_guid old = nb_guid selected ->
       carried_pages (previous_config w) (nb_guid selected)
       = default [] (exported_pages old)) /\
    (forall old,
       previous_config w = Some old ->
       remarkable_notebook_guid old <> nb_guid selected ->
       carried_pages (previous_config w) (nb_guid selected) = []) /\
    (previous_config w = None ->
     carried_pages (previous_config w) (nb_guid selected) = []).
Proof.
  unfold run_setup. intros Hrun.
  apply bind_ok in Hrun as ([] & w1 & H1 & Hrun).
  pose proof (stepped_home _ _ _ _ (print_home _) H1) as E1.
  destruct notebooks as [|first others].
  { apply bind_ok in Hrun as ([] & w2 & _ & Hrun).
    apply bind_ok in Hrun as ([] & w3 & _ & Hrun). discriminate. }
  apply bind_ok in Hrun as ([] & w2 & H2 & Hrun).
  pose proof (stepped_home _ _ _ _ (print_home _) H2) as E2.
  apply bind_ok in Hrun as ([] & w3 & H3 & Hrun).
  pose proof (stepped_home _ _ _ _ (list_notebooks_home _ _ _) H3) as E3.
  apply bind_ok in Hrun as ([] & w4 & H4 & Hrun).
  pose proof (stepped_home _ _ _ _ (print_home _) H4) as E4.
  apply bind_ok in Hrun as (lines & w5 & H5 & Hrun).
  injection H5 as <- <-.
  apply bind_ok in Hrun as (idx & w6 & H6 & Hrun).
  pose proof (stepped_home _ _ _ _ (select_number_home _ _ _) H6) as E6.
  apply bind_ok in Hrun as ([] & w7 & H7 & Hrun).
  pose proof (stepped_home _ _ _ _ (print_home _) H7) as E7.
  apply bind_ok in Hrun as (journal & w8 & H8 & Hrun).
  assert (E8 : config_home w8 = config_home w7).
  { refine (stepped_home _ _ _ _ _ H8).
    destruct journals as [|j js].
    - apply bind_home; [apply print_home|]. intros _.
      apply bind_home; [apply input_home|]. intros [l|];
        [apply ret_home|apply cancelled_home].
    - apply bind_home; [apply print_home|]. intros _.
      apply bind_home; [apply list_journals_home|]. intros _.
      apply bind_home; [apply print_home|]. intros _.
      apply bind_home; [intros ?; reflexivity|]. intros lines.
      apply bind_home; [apply select_number_home|]. intros; apply ret_home. }
  set (selected := default first ((first :: others) !! idx)) in *.
  assert (Hsame : previous_config w8 = previous_config w).
  { unfold previous_config. rewrite E8, E7, E6, E4, E3, E2, E1. reflexivity. }
  exists selected, journal. split_and!.
  - subst selected. destruct ((first :: others) !! idx) as [nb|] eqn:Hidx; simpl.
    + apply list_elem_of_lookup. eauto.
    + apply elem_of_cons. left. reflexivity.
  - rewrite <- Hsame. apply finish_setup_saves. exact Hrun.
  - intros old -> Hguid. unfold carried_pages.
    apply String.eqb_eq in Hguid. rewrite Hguid. reflexivity.
  - intros old -> Hguid. unfold carried_pages.
    apply String.eqb_neq in Hguid. rewrite Hguid. reflexivity.
  - intros ->. reflexivity.
Qed.

End Setup.

(** ** The statements on sample runs *)



Example published_in_list_order_run :
  let P := sample_platform [] in
  let w := sample_world (Some (Some (Json (sample_config (Some [])))))
             [page "p3" "30"; page "p2" "20"; page "p1" "10"] ["p1"; "p2"; "p3"] in
  published_bodies (log (run_export P "/data" false w).2)
  = ["Page 1 of Diary"; "Page 2 of Diary"; "Page 3 of Diary"] /\
  attempted (log (run_export P "/data" false w).2)
  = ["/data/nb/p3.rm"; "/data/nb/p2.rm"; "/data/nb/p1.rm"].
Proof. vm_compute. auto. Qed.


Example partial_failure_run :
  let P := sample_platform ["/data/nb/B.rm"] in
  let w := sample_world (Some (Some (Json (sample_config (Some [])))))
             [page "A" "10"; page "B" "20"; page "C" "30"] ["A"; "B"; "C"] in
  let w' := (run_export P "/data" false w).2 in
  (run_export P "/data" false w).1 = Ok tt /\
  attempted (log w') = ["/data/nb/A.rm"; "/data/nb/B.rm"; "/data/nb/C.rm"] /\
  published_bodies (log w') = ["Page 1 of Diary"; "Page 3 of Diary"] /\
  saves (log w') = [sample_config (Some ["A"]); sample_config (Some ["C"; "A"])] /\
  config_home w' = Some (Some (Json (sample_config (Some ["C"; "A"])))) /\
  summary_line 2 1 ∈ stdout w' /\
  ("FAILED - rmc conversion failed: ValueError: bad block" ++ nl)%string ∈ stdout w'.
Proof.
  vm_compute. split_and!; try reflexivity.
  - repeat first [apply list_elem_of_here|apply list_elem_of_further].
  - repeat first [apply list_elem_of_here|apply list_elem_of_further].
Qed.


Example dry_run_listing :
  let P := sample_platform [] in
  let w := sample_world (Some (Some (Json (sample_config (Some [])))))
             [page "0123456789abcdef" "1700000000000"; PageEntry (Some "B") None None]
             ["0123456789abcdef"] in
  run_export P "/data" true w
  = (Ok tt,
     World (config_home w) (store w) [] 
       [("Would export 1 page(s) from 'Diary' to Day One journal 'Journal'" ++ nl)%string;
        nl;
        ("  Page 1: 01234567... (ms=1700000000000)" ++ nl)%string;
        (nl ++ "Run without --dry-run to export." ++ nl)%string]
       []).
Proof. vm_compute. reflexivity. Qed.

(** The scenario of the two-page notebook: [A] is exported and
    recorded, [B] never shows up. *)
Example two_page_run :
  let P := sample_platform [] in
  let w := sample_world (Some (Some (Json (sample_config (Some [])))))
             [page "A" "1700000000000"; PageEntry (Some "B") None None] ["A"] in
  let w' := (run_export P "/data" false w).2 in
  attempted (log w') = ["/data/nb/A.rm"] /\
  published_bodies (log w') = ["Page 1 of Diary"] /\
  config_home w' = Some (Some (Json (sample_config (Some ["A"])))) /\
  last (stdout w') = Some (summary_line 1 0).
Proof. vm_compute. auto. Qed.

(** Setup run again: the first notebook and the first journal are
    picked, and a configuration for that notebook is on disk. *)
Lemma setup_carries_exported_pages_sample :
  let P := sample_platform [] in
  let old := sample_config (Some ["A"; "B"]) in
  let w := World (Some (Some (Json old))) (sample_store [] []) ["1"; "1"] [] [] in
  let notebooks := [Notebook "nb" "Diary" "" 2 2; Notebook "other" "Notes" "" 1 1] in
  let w' := (run_setup P "/data" notebooks ["Journal"] w).2 in
  run_setup P "/data" notebooks ["Journal"] w = (Ok tt, w') /\
  config_home w' = Some (Some (Json (Config "nb" "Diary" "Journal" (Some ["A"; "B"])))).
Proof.
  cbv zeta. split; [vm_compute; reflexivity|].
  destruct (setup_carries_exported_pages (sample_platform []) "/data"
              [Notebook "nb" "Diary" "" 2 2; Notebook "other" "Notes" "" 1 1]
              ["Journal"]
              (World (Some (Some (Json (sample_config (Some ["A"; "B"])))))
                     (sample_store [] []) ["1"; "1"] [] [])
              (run_setup (sample_platform []) "/data"
                 [Notebook "nb" "Diary" "" 2 2; Notebook "other" "Notes" "" 1 1]
                 ["Journal"]
                 (World (Some (Some (Json (sample_config (Some ["A"; "B"])))))
                        (sample_store [] []) ["1"; "1"] [] [])).2)
    as (selected & journal & _ & Hhome & _).
  - vm_compute. reflexivity.
  - vm_compute. reflexivity.
Defined.

Example setup_other_notebook_resets :
  let P := sample_platform [] in
  let old := sample_config (Some ["A"; "B"]) in
  let w := World (Some (Some (Json old))) (sample_store [] []) ["x"; "2"; "1"] [] [] in
  let notebooks := [Notebook "nb" "Diary" "" 2 2; Notebook "other" "Notes" "" 1 1] in
  let w' := (run_setup P "/data" notebooks ["Journal"] w).2 in
  config_home w' = Some (Some (Json (Config "other" "Notes" "Journal" (Some [])))).
Proof. vm_compute. reflexivity. Qed.


Example missing_field_run :
  let P := sample_platform [] in
  let w := sample_world (Some (Some (Json (sample_config None))))
             [page "A" "10"; page "B" "20"] ["A"] in
  let w' := (run_export P "/data" false w).2 in
  (run_export P "/data" false w).1 = Ok tt /\
  config_home w' = Some (Some (Json (sample_config (Some ["A"])))).
Proof. vm_compute. auto. Qed.

(** * Further properties *)

(** ** Runs that follow one another *)

Section Reruns.

Variable P : platform.

Lemma get_page_list_ext (data_dir guid : string) (w1 w2 : world) :
  store w1 = store w2 ->
  (get_page_list data_dir guid w1).1 = (get_page_list data_dir guid w2).1.
Proof.
  intros Hs. unfold get_page_list, bind, gets, raise, ret. rewrite Hs.
  destruct (store w2 !! _) as [[|[| |[ct|m]]]|]; simpl; try reflexivity;
    destruct (resolve_pages _); reflexivity.
Qed.

Lemma diffing_ext (data_dir : string) (w1 w2 : world) :
  config_home w1 = config_home w2 -> store w1 = store w2 ->
  diffing data_dir w1 = diffing data_dir w2.
Proof.
  intros Hh Hs. unfold diffing, load_config, bind, gets, ret, raise, path_exists.
  cbv beta. rewrite Hh.
  destruct (config_home w2) as [[[| |c]|]|]; simpl; try reflexivity.
  rewrite Hs.
  destruct (bool_decide _); [|reflexivity].
  pose proof (get_page_list_ext data_dir (remarkable_notebook_guid c) w1 w2 Hs)
    as Hget.
  destruct (get_page_list _ _ w1) as [r1 x1], (get_page_list _ _ w2) as [r2 x2].
  simpl in Hget. subst r2. reflexivity.
Qed.













End Reruns.

(** ** Numerals read back *)

Lemma digit_value_pretty_N_char (d : N) :
  (d < 10)%N -> digit_value (pretty_N_char d) = Some (Z.of_N d).
Proof.
  intros Hd.
  assert (d = 0 \/ d = 1 \/ d = 2 \/ d = 3 \/ d = 4 \/ d = 5 \/ d = 6
          \/ d = 7 \/ d = 8 \/ d = 9)%N as Hcases by lia.
  repeat (destruct Hcases as [->|Hcases]; [reflexivity|]). subst d. reflexivity.
Qed.

Lemma isspace_pretty_N_char (d : N) : isspace (pretty_N_char d) = false.
Proof.
  unfold pretty_N_char.
  repeat (match goal with |- context [match ?x with _ => _ end] => destruct x end;
          try reflexivity).
Qed.

Lemma digits_pretty_N_go (x : N) :
  (0 < x)%N ->
  forall (acc : Z) (after_digit : bool) (s : string),
  exists m, digits acc after_digit (pretty_N_go x s)
            = digits (acc * m + Z.of_N x) true s.
Proof.
  induction (N.lt_wf_0 x) as [x _ IH]. intros Hx acc b s.
  rewrite pretty_N_go_step by assumption.
  assert (Hd : (x `mod` 10 < 10)%N) by (apply N.mod_lt; discriminate).
  pose proof (N.div_mod x 10 ltac:(discriminate)) as Hdm.
  assert (Hlt : (x `div` 10 < x)%N) by (apply N.div_lt; [assumption|reflexivity]).
  revert Hd Hdm Hlt.
  generalize (x `mod` 10)%N as r. generalize (x `div` 10)%N as q.
  intros q r Hd Hdm Hlt.
  destruct (decide (q = 0)%N) as [Hq|Hq].
  - subst q. rewrite pretty_N_go_0. simpl.
    rewrite digit_value_pretty_N_char by assumption.
    exists 10. f_equal. lia.
  - assert (Hpos : (0 < q)%N) by lia.
    destruct (IH q Hlt Hpos acc b (String (pretty_N_char r) s)) as [m Hm].
    rewrite Hm. simpl. rewrite digit_value_pretty_N_char by assumption.
    exists (10 * m). f_equal. subst x. rewrite N2Z.inj_add, N2Z.inj_mul.
    change (Z.of_N 10) with 10. ring.
Qed.

Lemma head_pretty_N_go (x : N) (s : string) :
  (0 < x)%N ->
  exists d r, (d < 10)%N /\ pretty_N_go x s = String (pretty_N_char d) r.
Proof.
  revert s. induction (N.lt_wf_0 x) as [x _ IH]. intros s Hx.
  rewrite pretty_N_go_step by assumption.
  assert (Hd : (x `mod` 10 < 10)%N) by (apply N.mod_lt; discriminate).
  destruct (decide (x `div` 10 = 0)%N) as [Hq|Hq].
  - rewrite Hq, pretty_N_go_0. eauto.
  - apply IH; [apply N.div_lt; [assumption|reflexivity]|].
    destruct (x `div` 10)%N; [contradiction|reflexivity].
Qed.

Lemma rstrip_cons (c : ascii) (r : string) :
  isspace c = false -> rstrip r = r -> rstrip (String c r) = String c r.
Proof.
  intros Hc Hr. simpl. rewrite Hr, Hc. destruct r; reflexivity.
Qed.

Lemma rstrip_pretty_N_go (x : N) (s : string) :
  rstrip s = s -> rstrip (pretty_N_go x s) = pretty_N_go x s.
Proof.
  revert s. induction (N.lt_wf_0 x) as [x _ IH]. intros s Hs.
  destruct (decide (0 < x)%N) as [Hx|Hx].
  - rewrite pretty_N_go_step by assumption. apply IH.
    + apply N.div_lt; [assumption|reflexivity].
    + apply rstrip_cons; [apply isspace_pretty_N_char|assumption].
  - assert (x = 0%N) as -> by lia. rewrite pretty_N_go_0. assumption.
Qed.

Lemma strip_numeral (d : N) (r : string) :
  rstrip (String (pretty_N_char d) r) = String (pretty_N_char d) r ->
  strip (String (pretty_N_char d) r) = String (pretty_N_char d) r.
Proof.
  intros Hr. unfold strip. simpl lstrip. rewrite isspace_pretty_N_char. exact Hr.
Qed.

Lemma int_of_str_numeral (d : N) (r : string) :
  (d < 10)%N ->
  rstrip (String (pretty_N_char d) r) = String (pretty_N_char d) r ->
  int_of_str (String (pretty_N_char d) r)
  = digits 0 false (String (pretty_N_char d) r).
Proof.
  intros Hd Hr. unfold int_of_str. rewrite strip_numeral by assumption.
  assert (d = 0 \/ d = 1 \/ d = 2 \/ d = 3 \/ d = 4 \/ d = 5 \/ d = 6
          \/ d = 7 \/ d = 8 \/ d = 9)%N as Hcases by lia.
  repeat (destruct Hcases as [->|Hcases]; [reflexivity|]). subst d. reflexivity.
Qed.

Lemma show_forms (n : nat) :
  show n = "0" /\ n = 0%nat \/
  (0 < n)%nat /\ show n = pretty_N_go (N.of_nat n) "" /\
  exists d r, (d < 10)%N /\ show n = String (pretty_N_char d) r.
Proof.
  unfold show, pretty, pretty_nat, pretty, pretty_N.
  destruct (decide (N.of_nat n = 0%N)) as [H0|H0].
  - left. split; [reflexivity|lia].
  - right. split; [lia|]. split; [reflexivity|].
    apply head_pretty_N_go. lia.
Qed.

Lemma strip_show (n : nat) : strip (show n) = show n.
Proof.
  destruct (show_forms n) as [[-> _]|(Hn & Hgo & d & r & Hd & Hhead)];
    [reflexivity|].
  rewrite Hhead. apply strip_numeral. rewrite <- Hhead, Hgo.
  apply rstrip_pretty_N_go. reflexivity.
Qed.

Lemma int_of_str_show (n : nat) : int_of_str (show n) = Some (Z.of_nat n).
Proof.
  destruct (show_forms n) as [[-> ->]|(Hn & Hgo & d & r & Hd & Hhead)];
    [reflexivity|].
  rewrite Hhead, int_of_str_numeral; [|assumption|].
  - rewrite <- Hhead, Hgo.
    destruct (digits_pretty_N_go (N.of_nat n) ltac:(lia) 0 false "") as [m ->].
    simpl. f_equal. lia.
  - rewrite <- Hhead, Hgo. apply rstrip_pretty_N_go. reflexivity.
Qed.


(** ** Setup at the terminal *)

Section Terminal.

Variable P : platform.

Lemma terminal_bind {A B} (m : M A) (k : A -> M B) :
  terminal_only m -> (forall a, terminal_only (k a)) -> terminal_only (bind m k).
Proof.
  intros Hm Hk w. unfold bind. specialize (Hm w).
  destruct (m w) as [[a|c|e] w1]; simpl in *.
  - destruct Hm as (H1 & H2 & H3 & _). specialize (Hk a w1).
    destruct Hk as (K1 & K2 & K3 & K4).
    rewrite K1, K2, K3. auto.
  - destruct Hm as (H1 & H2 & H3 & [[a Ha]|Ha]); [discriminate|].
    injection Ha as ->. auto.
  - destruct Hm as (_ & _ & _ & [[a Ha]|Ha]); discriminate.
Qed.

Lemma terminal_ret {A} (a : A) : terminal_only (ret a).
Proof. intros w. simpl. eauto 10. Qed.

Lemma terminal_print (s : string) : terminal_only (print s).
Proof. intros w. simpl. eauto 10. Qed.

Lemma terminal_cancelled {A} : terminal_only (@cancelled A).
Proof. intros w. simpl. auto. Qed.

Lemma terminal_input (prompt : string) : terminal_only (input prompt).
Proof.
  intros w. unfold input, bind, print_noeol, modify, gets. simpl.
  destruct (stdin w); simpl; eauto 10.
Qed.

Lemma terminal_select_number (prompt : string) (count : nat) (lines : list string) :
  terminal_only (select_number prompt count lines).
Proof.
  induction lines as [|l rest IH]; simpl.
  - apply terminal_bind; [apply terminal_input|intros; apply terminal_cancelled].
  - apply terminal_bind; [apply terminal_input|].
    intros [answer|]; [|apply terminal_cancelled].
    destruct (int_of_str (strip answer)) as [n|].
    + destruct (_ && _); [apply terminal_ret|].
      apply terminal_bind; [apply terminal_print|intros; apply IH].
    + apply terminal_bind; [apply terminal_print|intros; apply IH].
Qed.

Lemma terminal_get_folder_name (data_dir parent_guid : string) :
  terminal_only (get_folder_name data_dir parent_guid).
Proof.
  intros w. unfold get_folder_name.
  destruct (_ || _); [simpl; eauto 10|].
  unfold bind, gets. simpl.
  destruct (store w !! _) as [[|[| |[c|m]]]|]; simpl; eauto 10.
Qed.

Lemma terminal_list_notebooks (data_dir : string) (i : nat)
    (notebooks : list notebook) :
  terminal_only (list_notebooks data_dir i notebooks).
Proof.
  revert i. induction notebooks as [|nb rest IH]; intros i; simpl.
  - apply terminal_ret.
  - apply terminal_bind; [apply terminal_get_folder_name|]. intros folder.
    apply terminal_bind; [apply terminal_print|intros; apply IH].
Qed.

Lemma terminal_list_journals (i : nat) (journals : list string) :
  terminal_only (list_journals i journals).
Proof.
  revert i. induction journals as [|j rest IH]; intros i; simpl.
  - apply terminal_ret.
  - apply terminal_bind; [apply terminal_print|intros; apply IH].
Qed.

Lemma input_some (prompt : string) (w : world) (l : string) (rest : list string) :
  stdin w = l :: rest ->
  input prompt w = (Ok (Some l), set_stdin rest (add_stdout prompt w)).
Proof.
  intros Hin. unfold input, bind, print_noeol, modify, gets. simpl.
  rewrite Hin. reflexivity.
Qed.

Lemma input_none (prompt : string) (w : world) :
  stdin w = [] -> input prompt w = (Ok None, add_stdout prompt w).
Proof.
  intros Hin. unfold input, bind, print_noeol, modify, gets. simpl.
  rewrite Hin. reflexivity.
Qed.

(** X4.  [select_number] stays at the terminal and in range.  Whatever
    is typed, the loop touches neither the configuration nor the data
    directory and runs nothing; it ends either with an index below
    [count] or, when the input runs out, by cancelling setup with exit
    status 0. *)
Theorem select_number_in_range (prompt : string) (count : nat)
    (lines : list string) (w : world) :
  let r := select_number prompt count lines w in
  config_home r.2 = config_home w /\
  store r.2 = store w /\
  log r.2 = log w /\
  ((exists idx, r.1 = Ok idx /\ (idx < count)%nat) \/ r.1 = Exit 0).
Proof.
  cbv zeta. destruct (terminal_select_number prompt count lines w)
    as (H1 & H2 & H3 & H4).
  split_and!; auto.
  destruct H4 as [[idx Hidx]|Hexit]; [left|right; assumption].
  exists idx. split; [assumption|].
  clear H1 H2 H3. revert w Hidx.
  induction lines as [|l rest IH]; intros w; simpl; unfold bind.
  - destruct (input prompt w) as [[a|c|e] w1]; simpl; discriminate.
  - destruct (input prompt w) as [[[answer|]|c|e] w1]; simpl; try discriminate.
    destruct (int_of_str (strip answer)) as [n|].
    + destruct ((0 <=? n - 1) && (n - 1 <? Z.of_nat count)) eqn:Hrange.
      * simpl. intros [= <-]. apply andb_true_iff in Hrange as [Hlo Hhi].
        apply Z.leb_le in Hlo. apply Z.ltb_lt in Hhi. lia.
      * unfold print, modify. apply IH.
    + unfold print, modify. apply IH.
Qed.

(** X5.  A listed number selects its entry.  When the next line of
    input is the decimal numeral of [k] and [k] is between 1 and
    [count], the loop returns the index [k - 1] at once: it prints the
    prompt once and reads that one line. *)
Theorem select_number_accepts_numeral (prompt : string) (count k : nat)
    (rest : list string) (w : world) :
  stdin w = show k :: rest ->
  (1 <= k <= count)%nat ->
  select_number prompt count (stdin w) w
  = (Ok (k - 1)%nat, set_stdin rest (add_stdout prompt w)).
Proof.
  intros Hin Hk. rewrite Hin. cbn [select_number]. unfold bind at 1.
  rewrite (input_some prompt w _ _ Hin). cbv beta iota.
  rewrite strip_show, int_of_str_show.
  replace ((0 <=? Z.of_nat k - 1) && (Z.of_nat k - 1 <? Z.of_nat count)) with true.
  - unfold ret. do 2 f_equal. lia.
  - symmetry. apply andb_true_iff. split; [apply Z.leb_le|apply Z.ltb_lt]; lia.
Qed.

(** X6.  Input without a valid choice cancels setup.  When every line
    left on standard input is turned down, because it is no integer or
    because the number is not between 1 and [count], the loop reads
    them all and then cancels setup with exit status 0. *)
Theorem select_number_runs_out (prompt : string) (count : nat) (w : world) :
  Forall (rejected count) (stdin w) ->
  (select_number prompt count (stdin w) w).1 = Exit 0 /\
  stdin (select_number prompt count (stdin w) w).2 = [].
Proof.
  remember (stdin w) as lines eqn:Hlines. revert w Hlines.
  induction lines as [|l rest IH]; intros w Hlines Hall.
  - cbn [select_number]. unfold bind.
    rewrite (input_none prompt w (eq_sym Hlines)). simpl.
    rewrite <- Hlines. auto.
  - cbn [select_number]. unfold bind.
    rewrite (input_some prompt w l rest (eq_sym Hlines)). cbv beta iota.
    inversion Hall as [|? ? Hl Hrest]; subst.
    unfold rejected in Hl.
    destruct (int_of_str (strip l)) as [n|] eqn:Hn.
    + replace ((0 <=? n - 1) && (n - 1 <? Z.of_nat count)) with false.
      * unfold print, modify. apply IH; [reflexivity|assumption].
      * symmetry. apply andb_false_iff.
        destruct (Z.leb_spec 0 (n - 1)); [right; apply Z.ltb_ge; lia|left; reflexivity].
    + unfold print, modify. apply IH; [reflexivity|assumption].
Qed.

Lemma saves_or_keeps_bind {A} (m : M A) (k : A -> M unit) :
  terminal_only m -> (forall a, saves_or_keeps (k a)) -> saves_or_keeps (bind m k).
Proof.
  intros Hm Hk w. unfold bind. specialize (Hm w).
  destruct (m w) as [[a|c|e] w1]; simpl in *.
  - destruct Hm as (H1 & H2 & H3 & _). specialize (Hk a w1).
    rewrite H1, H2, H3 in Hk. exact Hk.
  - destruct Hm as (H1 & H2 & H3 & [[a Ha]|Ha]); [discriminate|].
    injection Ha as ->. auto 10.
  - destruct Hm as (_ & _ & _ & [[a Ha]|Ha]); discriminate.
Qed.

Lemma finish_setup_result (selected : notebook) (journal : string) (w : world) :
  finish_setup P selected journal w = (Raise JSONDecodeError, w) \/
  exists c outs,
    finish_setup P selected journal w
    = (Ok tt, set_config_home (Some (Some (Json c))) (after [Saved c] outs w)).
Proof.
  assert (Hload : load_config w = (Raise JSONDecodeError, w) \/
                  exists existing, load_config w = (Ok existing, w)).
  { unfold load_config, bind, gets, ret, raise.
    destruct (config_home w) as [[[| |old]|]|]; simpl; eauto. }
  unfold finish_setup, bind.
  destruct Hload as [Hload|[existing Hload]]; rewrite Hload;
    [left; reflexivity|right].
  cbv beta iota zeta.
  match goal with |- context [(if ?b then print ?s else ret tt) w] =>
    assert (Hfirst : exists outs,
              (if b then print s else ret tt) w = (Ok tt, after [] outs w))
      by (destruct b;
          [unfold print, modify; rewrite add_stdout_after; eauto
          |exists []; rewrite after_nil; reflexivity])
  end.
  destruct Hfirst as [outs ->]. cbv beta iota.
  unfold print, modify, ret. rewrite save_config_ok.
  eexists _, _. cbv beta iota. f_equal.
  unfold add_stdout, add_log, set_config_home, after. simpl.
  rewrite <- !app_assoc. simpl. reflexivity.
Qed.

Lemma finish_setup_saves_or_keeps (selected : notebook) (journal : string) :
  saves_or_keeps (finish_setup P selected journal).
Proof.
  intros w.
  destruct (finish_setup_result selected journal w) as [->|(c & outs & ->)];
    simpl; eauto 10.
Qed.

Lemma run_setup_saves_or_keeps (data_dir : string) (first : notebook)
    (others : list notebook) (journals : list string) :
  saves_or_keeps (run_setup P data_dir (first :: others) journals).
Proof.
  unfold run_setup.
  apply saves_or_keeps_bind; [apply terminal_print|intros _].
  apply saves_or_keeps_bind; [apply terminal_print|intros _].
  apply saves_or_keeps_bind; [apply terminal_list_notebooks|intros _].
  apply saves_or_keeps_bind; [apply terminal_print|intros _].
  apply saves_or_keeps_bind; [intros ?; simpl; eauto 10|intros lines].
  apply saves_or_keeps_bind; [apply terminal_select_number|intros idx].
  apply saves_or_keeps_bind; [apply terminal_print|intros _].
  apply saves_or_keeps_bind; [|intros journal; apply finish_setup_saves_or_keeps].
  destruct journals as [|j js].
  - apply terminal_bind; [apply terminal_print|intros _].
    apply terminal_bind; [apply terminal_input|].
    intros [l|]; [apply terminal_ret|apply terminal_cancelled].
  - apply terminal_bind; [apply terminal_print|intros _].
    apply terminal_bind; [apply terminal_list_journals|intros _].
    apply terminal_bind; [apply terminal_print|intros _].
    apply terminal_bind; [intros ?; simpl; eauto 10|intros lines2].
    apply terminal_bind; [apply terminal_select_number|intros jdx].
    apply terminal_ret.
Qed.

(** X7.  Setup writes the configuration only when it runs to its end.
    A setup that completes has saved exactly one configuration, as its
    only effect besides the terminal.  A setup that stops, because no
    notebook was found (exit status 1), because the input ran out
    (exit status 0) or because the old [config.json] cannot be decoded,
    leaves the configuration as it was and saves nothing.  Setup never
    changes the data directory and never runs a program. *)
Theorem setup_saves_only_at_the_end (data_dir : string)
    (notebooks : list notebook) (journals : list string) (w : world) :
  let r := run_setup P data_dir notebooks journals w in
  store r.2 = store w /\
  (r.1 = Ok tt /\
   (exists c, log r.2 = log w ++ [Saved c] /\
              config_home r.2 = Some (Some (Json c))) \/
   (r.1 = Exit 0 \/ r.1 = Exit 1 \/ r.1 = Raise JSONDecodeError) /\
   log r.2 = log w /\ config_home r.2 = config_home w) /\
  (r.1 = Exit 1 <-> notebooks = []).
Proof.
  cbv zeta. destruct notebooks as [|first others].
  - unfold run_setup, bind, print, modify, sys_exit. simpl.
    split_and!; [reflexivity|right; auto 10|split; reflexivity].
  - destruct (run_setup_saves_or_keeps data_dir first others journals w)
      as (Hstore & [[Hok Hsave]|[Hstop Hkeep]]).
    + split_and!; auto. rewrite Hok. split; discriminate.
    + split_and!; auto.
      * right. split; [|assumption]. destruct Hstop; auto.
      * split; [|discriminate]. destruct Hstop as [-> | ->]; discriminate.
Qed.

End Terminal.

(** ** How an export run can end *)

Section Endings.

Variable P : platform.



End Endings.

(** ** The conversion pipeline and the publisher *)

Section Pipeline.

Variable P : platform.

(** X9.  The stages of the conversion.  Inkscape runs only after
    [rmc] returned 0, and the intermediate SVG is removed only after
    Inkscape returned 0, which is the one case in which the conversion
    returns, with the output path it was given.  A non-zero status of
    either tool becomes a [RuntimeError] that names the tool, the
    [rmc] one carrying a single line of its diagnostics; a tool that
    cannot be started passes its own error on.  The conversion prints
    nothing and saves nothing. *)
Theorem convert_rm_to_png_stages (rm_path output_path : string) (w : world) :
  let svg := (rsplit_dot_head output_path ++ ".svg")%string in
  let rmc := [RMC_BIN P; "-t"; "svg"; rm_path; "-o"; svg] in
  let inkscape := [INKSCAPE_BIN; "--export-type=png";
                   ("--export-filename=" ++ output_path)%string; svg] in
  let r1 := subprocess_run P (log w) rmc in
  let r2 := subprocess_run P (log w ++ [Spawn rmc r1]) inkscape in
  convert_rm_to_png P rm_path output_path w
  = match r1 with
    | Completed 0 _ _ =>
        match r2 with
        | Completed 0 _ _ =>
            (Ok output_path,
             after [Spawn rmc r1; Spawn inkscape r2; Unlink svg] [] w)
        | Completed _ _ err2 =>
            (Raise (RuntimeError ("inkscape conversion failed: " ++ strip err2)),
             after [Spawn rmc r1; Spawn inkscape r2] [] w)
        | NotRun cls msg =>
            (Raise (SpawnError cls msg),
             after [Spawn rmc r1; Spawn inkscape r2] [] w)
        end
    | Completed _ _ err1 =>
        (Raise (RuntimeError ("rmc conversion failed: " ++ rmc_error_line err1)),
         after [Spawn rmc r1] [] w)
    | NotRun cls msg => (Raise (SpawnError cls msg), after [Spawn rmc r1] [] w)
    end.
Proof.
  cbv zeta. unfold convert_rm_to_png, bind, run, emit, modify, raise, ret,
    rmc_error_line.
  destruct (subprocess_run P (log w) _) as [rc1 o1 e1|cls1 m1];
    [|rewrite add_log_after; reflexivity].
  destruct rc1 as [|p1|p1]; cbn [negb Z.eqb]; cbv beta iota;
    try (rewrite add_log_after; reflexivity).
  simpl log.
  destruct (subprocess_run P (log w ++ _) _) as [rc2 o2 e2|cls2 m2];
    [|rewrite ?add_log_after, ?after_after; reflexivity].
  destruct rc2 as [|p2|p2]; cbn [negb Z.eqb]; cbv beta iota;
    rewrite ?add_log_after, ?after_after; reflexivity.
Qed.

Lemma append_assoc (a b c : string) : ((a ++ b) ++ c = a ++ (b ++ c))%string.
Proof.
  induction a as [|x a IH]; [reflexivity|].
  change (String x ((a ++ b) ++ c) = String x (a ++ (b ++ c)))%string.
  f_equal. exact IH.
Qed.

Lemma append_nil_r (a : string) : (a ++ "")%string = a.
Proof.
  induction a as [|x a IH]; [reflexivity|].
  change (String x (a ++ "") = String x a)%string. f_equal. exact IH.
Qed.

Lemma lstrip_blank (s : string) : blank s = true -> lstrip s = "".
Proof.
  induction s as [|c s IH]; simpl; [reflexivity|].
  intros H. apply andb_true_iff in H as [Hc Hs]. rewrite Hc. auto.
Qed.

Lemma rstrip_empty_blank (s : string) : rstrip s = "" -> blank s = true.
Proof.
  induction s as [|c s IH]; [reflexivity|]. simpl.
  destruct (rstrip s) as [|c' s'] eqn:Hs.
  - destruct (isspace c) eqn:Hc; [|discriminate]. intros _. simpl. auto.
  - discriminate.
Qed.

Lemma blank_lstrip (s : string) : blank (lstrip s) = true -> blank s = true.
Proof.
  induction s as [|c s IH]; [reflexivity|]. simpl.
  destruct (isspace c) eqn:Hc; [exact IH|].
  simpl. rewrite Hc. discriminate.
Qed.

Lemma strip_empty_blank (s : string) : strip s = "" -> blank s = true.
Proof. intros H. apply blank_lstrip, rstrip_empty_blank, H. Qed.

Lemma not_linebreak_not_lf (c : ascii) :
  is_linebreak c = false -> Ascii.eqb c "010" = false.
Proof.
  intros Hc. destruct (Ascii.eqb_spec c "010"); [subst; discriminate|reflexivity].
Qed.

Lemma splitlines_one_line (b cur : string) (after_cr : bool) :
  one_line b = true ->
  splitlines_from b cur after_cr
  = if String.eqb (cur ++ b) "" then [] else [(cur ++ b)%string].
Proof.
  revert cur after_cr. induction b as [|c b IH]; intros cur cr; simpl.
  - rewrite append_nil_r. reflexivity.
  - intros H. apply andb_true_iff in H as [Hc Hb].
    apply negb_true_iff in Hc. rewrite (not_linebreak_not_lf c Hc), Hc. simpl.
    rewrite (IH _ _ Hb), append_assoc. reflexivity.
Qed.

Lemma splitlines_last_line (a : string) (c : ascii) (b cur : string)
    (after_cr : bool) :
  is_linebreak c = true -> one_line b = true -> b <> "" ->
  (after_cr = true -> cur = "") ->
  last (splitlines_from (a ++ String c b) cur after_cr) = Some b.
Proof.
  intros Hc Hb Hne. revert cur after_cr.
  assert (Hend : forall cr, last (splitlines_from b "" cr) = Some b).
  { intros cr. rewrite (splitlines_one_line b "" cr Hb).
    change ("" ++ b)%string with b.
    destruct (String.eqb_spec b ""); [contradiction|reflexivity]. }
  assert (Hcons : forall (x : string) l, last l = Some b -> last (x :: l) = Some b).
  { intros x [|y l] H; [discriminate|exact H]. }
  induction a as [|x a IH]; intros cur cr Hinv; simpl.
  - destruct (Ascii.eqb c "010" && cr) eqn:Hskip.
    + apply andb_true_iff in Hskip as [_ ->]. rewrite (Hinv eq_refl). apply Hend.
    + rewrite Hc. apply Hcons, Hend.
  - destruct (Ascii.eqb x "010" && cr) eqn:Hskip.
    + apply IH. discriminate.
    + destruct (is_linebreak x).
      * apply Hcons, IH. reflexivity.
      * apply IH. discriminate.
Qed.

(** X10.  The line an [rmc] failure reports.  When the diagnostics of
    [rmc] are empty or blank the reported line is [unknown error]; when
    they are a single line it is that line without the blanks around
    it; and when, blanks around removed, they end in a line boundary
    followed by a non-empty line, it is that last line. *)
Theorem rmc_error_line_is_last_line :
  (forall err, blank err = true -> rmc_error_line err = "unknown error") /\
  (forall err,
     strip err <> "" -> one_line (strip err) = true ->
     rmc_error_line err = strip err) /\
  (forall err before c line,
     strip err = (before ++ String c line)%string ->
     is_linebreak c = true -> one_line line = true -> line <> "" ->
     rmc_error_line err = line).
Proof.
  split_and!.
  - intros err Hb. unfold rmc_error_line, strip.
    rewrite (lstrip_blank err Hb). reflexivity.
  - intros err Hne Hone. unfold rmc_error_line, splitlines.
    rewrite (splitlines_one_line _ "" false Hone).
    change ("" ++ strip err)%string with (strip err).
    destruct (String.eqb_spec (strip err) ""); [contradiction|reflexivity].
  - intros err before c line Hs Hc Hone Hne. unfold rmc_error_line, splitlines.
    rewrite Hs, (splitlines_last_line before c line "" false Hc Hone Hne);
      [reflexivity|discriminate].
Qed.

Lemma before_last_dot_png (base : string) :
  before_last_dot (base ++ ".png") = Some base.
Proof.
  induction base as [|c base IH]; simpl; [reflexivity|]. rewrite IH. reflexivity.
Qed.

Lemma rsplit_dot_head_png (directory page_id : string) :
  rsplit_dot_head (joinpath directory (page_id ++ ".png"))
  = joinpath directory page_id.
Proof.
  unfold joinpath, rsplit_dot_head.
  rewrite <- !append_assoc, before_last_dot_png. reflexivity.
Qed.

Lemma joinpath_suffix (directory name suffix : string) :
  (joinpath directory name ++ suffix)%string = joinpath directory (name ++ suffix).
Proof. unfold joinpath. rewrite !append_assoc. reflexivity. Qed.

(** X11.  The SVG lies beside the PNG.  For the PNG path the export
    loop builds from the temporary directory and a page identifier, the
    intermediate SVG path of the conversion is the same path with the
    extension replaced, also when the directory or the identifier
    contains dots. *)
Theorem svg_beside_png (directory page_id : string) :
  (rsplit_dot_head (joinpath directory (page_id ++ ".png")) ++ ".svg")%string
  = joinpath directory (page_id ++ ".svg").
Proof. rewrite rsplit_dot_head_png. apply joinpath_suffix. Qed.

Lemma published_bodies_last (l : list event) (e : event) (b : string) :
  publish_body e = Some b -> published_bodies (l ++ [e]) <> [].
Proof.
  intros H. unfold published_bodies. rewrite omap_app. simpl. rewrite H.
  destruct (omap publish_body l); discriminate.
Qed.

(** X12.  No entry without a converted page.  In the [try] block of
    the export loop the publisher is called only after [rmc] and
    Inkscape both returned 0 and the SVG was removed; it is then the
    last thing the block does, with the PNG the conversion wrote as its
    attachment, and the block succeeds exactly when that call returns
    0. *)
Theorem publish_follows_conversion (name journal : string) (item : pending)
    (w : world) :
  let png := joinpath (tmp_dir P) (page_of item ++ ".png") in
  let svg := joinpath (tmp_dir P) (page_of item ++ ".svg") in
  let rmc := [RMC_BIN P; "-t"; "svg"; rm_file_of item; "-o"; svg] in
  let inkscape := [INKSCAPE_BIN; "--export-type=png";
                   ("--export-filename=" ++ png)%string; svg] in
  let cmd := dayone_cmd journal (strftime P (date_of item)) ["reMarkable"; name]
               (Some png) (entry_text name item) in
  exists evs,
    (attempt P name journal item w).2 = after evs [] w /\
    (published_bodies evs <> [] ->
     exists o1 e1 o2 e2 res,
       evs = [Spawn rmc (Completed 0 o1 e1); Spawn inkscape (Completed 0 o2 e2);
              Unlink svg; Spawn cmd res] /\
       ((attempt P name journal item w).1 = Ok None <->
        exists out err, res = Completed 0 out err)) /\
    (published_bodies evs = [] ->
     exists e, (attempt P name journal item w).1 = Ok (Some e)).
Proof.
  destruct item as [[[i page_id] rm_file] page_date]. cbv zeta.
  unfold page_of, rm_file_of, date_of. simpl fst. simpl snd.
  unfold attempt, try_except, convert_rm_to_png, bind, run, emit, modify,
    raise, ret.
  rewrite rsplit_dot_head_png, joinpath_suffix.
  set (svg := joinpath (tmp_dir P) (page_id ++ ".svg")).
  set (png := joinpath (tmp_dir P) (page_id ++ ".png")).
  set (rmc := [RMC_BIN P; "-t"; "svg"; rm_file; "-o"; svg]).
  set (ink := [INKSCAPE_BIN; "--export-type=png"; _; svg]).
  destruct (subprocess_run P (log w) rmc) as [rc1 o1 e1|cls1 m1].
  2:{ rewrite ?add_log_after, ?after_after.
      eexists. split; [reflexivity|]. unfold published_bodies, publish_body.
      simpl. split; [intros H; contradiction|eauto]. }
  destruct rc1 as [|p1|p1]; cbn [negb Z.eqb]; cbv beta iota.
  2, 3: rewrite ?add_log_after, ?after_after;
        eexists; (split; [reflexivity|]); unfold published_bodies, publish_body;
        simpl; (split; [intros H; contradiction|eauto]).
  simpl log.
  destruct (subprocess_run P (log w ++ _) ink) as [rc2 o2 e2|cls2 m2].
  2:{ rewrite ?add_log_after, ?after_after.
      eexists. split; [reflexivity|]. unfold published_bodies, publish_body.
      simpl. split; [intros H; contradiction|eauto]. }
  destruct rc2 as [|p2|p2]; cbn [negb Z.eqb]; cbv beta iota.
  2, 3: rewrite ?add_log_after, ?after_after;
        eexists; (split; [reflexivity|]); unfold published_bodies, publish_body;
        simpl; (split; [intros H; contradiction|eauto]).
  unfold create_dayone_entry, bind, run, raise, ret. simpl log.
  fold (entry_text name (i, page_id, rm_file, page_date)).
  set (cmd := dayone_cmd _ _ _ _ _).
  assert (Hbody : forall res, publish_body (Spawn cmd res)
                              = Some (entry_text name (i, page_id, rm_file, page_date)))
    by (intros res; apply (publish_body_entry_cmd P name journal
                             (i, page_id, rm_file, page_date))).
  destruct (subprocess_run P _ cmd) as [rc3 o3 e3|cls3 m3] eqn:H3.
  - destruct rc3 as [|p3|p3]; cbn [negb Z.eqb]; cbv beta iota;
      rewrite ?add_log_after, ?after_after; simpl app;
      (eexists; split; [reflexivity|]);
      (split; [intros _; eexists _, _, _, _, _; split; [reflexivity|];
               split; [intros Hok; try discriminate; eauto
                      |intros (out & err & [=]); reflexivity]
              |intros Hnone; exfalso; revert Hnone;
               apply (published_bodies_last [_; _; _] _ _ (Hbody _))]).
  - rewrite ?add_log_after, ?after_after. simpl app.
    eexists. split; [reflexivity|].
    split; [intros _; eexists _, _, _, _, _; split; [reflexivity|];
            split; [discriminate|intros (out & err & [=])]
           |intros Hnone; exfalso; revert Hnone;
            apply (published_bodies_last [_; _; _] _ _ (Hbody _))].
Qed.

End Pipeline.

(** ** The records an export run writes *)

Section Records.

Variable P : platform.



End Records.

(** ** The journals offered by setup *)

Lemma named_rows_elem (rows : list (option string)) (name : string) :
  name ∈ named_rows rows <-> name <> "" /\ Some name ∈ rows.
Proof.
  unfold named_rows. rewrite list_elem_of_omap. split.
  - intros ([s|] & Hin & Hs); simpl in Hs; [|discriminate].
    unfold nonempty in Hs. destruct (String.eqb_spec s ""); simpl in Hs;
      [discriminate|]. injection Hs as <-. auto.
  - intros [Hne Hin]. exists (Some name). split; [assumption|]. simpl.
    unfold nonempty. destruct (String.eqb_spec name ""); [contradiction|reflexivity].
Qed.

(** X14.  The journals offered are sorted and unique.  The list of
    journal names is sorted, has no duplicates and no empty name, and
    holds exactly the non-empty names of the rows, so it does not
    depend on the order or the multiplicity of the rows; without a
    database, or when the query fails, it is empty. *)
Theorem list_dayone_journals_sorted_unique (db : journal_db) :
  let journals := list_dayone_journals db in
  StronglySorted String.le journals /\
  NoDup journals /\
  (forall name,
     name ∈ journals <->
     name <> "" /\ exists rows, db = Rows rows /\ Some name ∈ rows) /\
  (forall rows rows',
     db = Rows rows -> (forall name, Some name ∈ rows <-> Some name ∈ rows') ->
     list_dayone_journals (Rows rows') = journals).
Proof.
  cbv zeta. split_and!.
  - destruct db; simpl; try constructor. apply StronglySorted_merge_sort; apply _.
  - destruct db; simpl; try constructor.
    rewrite merge_sort_Permutation. apply NoDup_elements.
  - intros name. destruct db as [| |rows]; simpl.
    + split; [intros H; inversion H|intros (_ & rows & [=] & _)].
    + split; [intros H; inversion H|intros (_ & rows & [=] & _)].
    + rewrite merge_sort_Permutation, elem_of_elements, elem_of_list_to_set,
        named_rows_elem.
      split; [intros [Hne Hin]; eauto|intros (Hne & rows' & [= <-] & Hin); auto].
  - intros rows rows' -> Hsame. simpl. do 2 f_equal.
    apply set_eq. intros name. rewrite !elem_of_list_to_set, !named_rows_elem, Hsame.
    reflexivity.
Qed.

(** ** What setup saves *)

Section Choices.

Variable P : platform.

Lemma bind_eq {A B} (m : M A) (k : A -> M B) (w w1 : world) (a : A) :
  m w = (Ok a, w1) -> bind m k w = k a w1.
Proof. intros H. unfold bind. rewrite H. reflexivity. Qed.

Lemma list_notebooks_said (data_dir : string) (i : nat)
    (notebooks : list notebook) (w : world) :
  exists outs, list_notebooks data_dir i notebooks w = (Ok tt, after [] outs w).
Proof.
  revert i w. induction notebooks as [|nb rest IH]; intros i w; simpl.
  - exists []. rewrite after_nil. reflexivity.
  - assert (Hfolder : exists folder,
              get_folder_name data_dir (nb_parent nb) w = (Ok folder, w)).
    { unfold get_folder_name, bind, gets, ret.
      destruct (negb _ || _); [eauto|].
      destruct (store w !! _) as [[|[| |[ct|m]]]|]; eauto. }
    destruct Hfolder as [folder Hfolder].
    rewrite (bind_eq _ _ _ _ _ Hfolder).
    erewrite bind_eq by (unfold print, modify; reflexivity).
    destruct (IH (S i) (add_stdout
                (("  " ++ show3 i ++ ". " ++ nb_name nb
                  ++ (if nonempty folder then "  [" ++ folder ++ "]" else "")
                  ++ "  (" ++ show (nb_rm_count nb) ++ "/" ++ show (nb_page_count nb)
                  ++ " pages with content)") ++ nl)%string w)) as [outs Hrest].
    rewrite Hrest, add_stdout_after, after_after. eauto.
Qed.

Lemma list_journals_said (i : nat) (journals : list string) (w : world) :
  exists outs, list_journals i journals w = (Ok tt, after [] outs w).
Proof.
  revert i w. induction journals as [|j rest IH]; intros i w; simpl.
  - exists []. rewrite after_nil. reflexivity.
  - erewrite bind_eq by (unfold print, modify; reflexivity).
    destruct (IH (S i) (add_stdout (("  " ++ show3 i ++ ". " ++ j) ++ nl)%string w))
      as [outs Hrest].
    rewrite Hrest, add_stdout_after, after_after. eauto.
Qed.

Lemma select_number_step (prompt : string) (count : nat) (l : string)
    (rest : list string) (n : Z) (w : world) :
  stdin w = l :: rest ->
  int_of_str (strip l) = Some n ->
  1 <= n <= Z.of_nat count ->
  select_number prompt count (l :: rest) w
  = (Ok (Z.to_nat (n - 1)), set_stdin rest (add_stdout prompt w)).
Proof.
  intros Hin Hn Hrange. cbn [select_number].
  rewrite (bind_eq _ _ _ _ _ (input_some prompt w l rest Hin)).
  rewrite Hn.
  replace ((0 <=? n - 1) && (n - 1 <? Z.of_nat count)) with true; [reflexivity|].
  symmetry. apply andb_true_iff. split; [apply Z.leb_le|apply Z.ltb_lt]; lia.
Qed.

Lemma finish_setup_ok (selected : notebook) (journal : string) (w : world) :
  decodable (config_home w) ->
  exists outs,
    let c := Config (nb_guid selected) (nb_name selected) journal
               (Some (carried_pages (previous_config w) (nb_guid selected))) in
    finish_setup P selected journal w
    = (Ok tt, set_config_home (Some (Some (Json c))) (after [Saved c] outs w)).
Proof.
  intros Hdec.
  destruct (finish_setup_result P selected journal w) as [Hraise|(c & outs & Hrun)].
  - exfalso. revert Hraise. unfold finish_setup, load_config, bind, gets, ret, raise.
    unfold decodable in Hdec.
    destruct (config_home w) as [[[| |old]|]|]; try contradiction;
      cbv beta iota zeta;
      try destruct (String.eqb _ _);
      unfold print, modify, ret; rewrite save_config_ok; discriminate.
  - exists outs. cbv zeta. rewrite Hrun.
    pose proof (finish_setup_saves P _ _ _ _ Hrun) as Hsaved.
    simpl in Hsaved. injection Hsaved as ->. reflexivity.
Qed.

Lemma bind_assoc {A B C} (m : M A) (f : A -> M B) (g : B -> M C) (w : world) :
  bind (bind m f) g w = bind m (fun a => bind (f a) g) w.
Proof. unfold bind. destruct (m w) as [[a|c|e] w1]; reflexivity. Qed.

Ltac assoc := rewrite bind_assoc.

Ltac said := cbn [stdin config_home log store add_stdout after set_stdin
                   set_config_home].

Ltac printed := erewrite bind_eq by (unfold print, modify; reflexivity).

Ltac listed :=
  match goal with
  | |- context [bind (list_notebooks ?d ?i ?n) ?k ?w] =>
      let outs := fresh "outs" in
      let H := fresh "H" in
      destruct (list_notebooks_said d i n w) as [outs H];
      rewrite (bind_eq _ k _ _ _ H); clear H
  | |- context [bind (list_journals ?i ?n) ?k ?w] =>
      let outs := fresh "outs" in
      let H := fresh "H" in
      destruct (list_journals_said i n w) as [outs H];
      rewrite (bind_eq _ k _ _ _ H); clear H
  end.

Ltac chosen Hin Hn :=
  erewrite bind_eq by (unfold gets; reflexivity); said; rewrite ?Hin;
  erewrite bind_eq
    by (eapply select_number_step; [said; try exact Hin; reflexivity|exact Hn|lia]).

(** The notebook part of [run_setup], when the first line typed is the
    number of a notebook. *)
Lemma run_setup_selects (data_dir : string) (notebooks : list notebook)
    (journals : list string) (w : world) (a1 : string) (more : list string)
    (k : nat) (nb : notebook) :
  stdin w = a1 :: more ->
  int_of_str (strip a1) = Some (Z.of_nat (S k)) ->
  notebooks !! k = Some nb ->
  exists outs,
    run_setup P data_dir notebooks journals w
    = (journal <-
         match journals with
         | default_choice :: _ =>
             print (nl ++ "Day One journals:" ++ nl) ;;;
             list_journals 1 journals ;;;
             print "" ;;;
             lines <- gets stdin ;;
             jdx <- select_number "Select journal number: " (length journals) lines ;;
             ret (default default_choice (journals !! jdx))
         | [] =>
             print (nl ++ "Could not read Day One journals from database.") ;;;
             answer <- input ("Day One journal name [" ++ "Journal" ++ "]: ") ;;
             match answer with
             | None => cancelled
             | Some l =>
                 let journal := strip l in
                 ret (if nonempty journal then journal else "Journal")
             end
         end ;;
       finish_setup P nb journal) (set_stdin more (after [] outs w)).
Proof.
  intros Hin Hn Hnb.
  assert (Hk : (k < length notebooks)%nat) by (apply lookup_lt_is_Some; eauto).
  unfold run_setup. destruct notebooks as [|first others]; [discriminate|].
  printed. printed. listed. printed. chosen Hin Hn.
  printed.
  replace (Z.to_nat (Z.of_nat (S k) - 1)) with k by lia. rewrite Hnb.
  cbn [default].
  eexists. f_equal.
  unfold add_stdout, after, set_stdin. simpl. rewrite <- !app_assoc. simpl.
  reflexivity.
Qed.

(** X15.  Setup saves what was chosen.  When the two lines typed are
    the number of a notebook and the number of a journal of the lists
    shown, and [config.json] is absent or holds a configuration, setup
    runs to its end, reads exactly these two lines and saves, as its
    only effect besides the terminal, the configuration made of that
    notebook's identifier and name, that journal, and the export
    records carried over for that notebook. *)
Theorem setup_saves_the_choice (data_dir : string) (notebooks : list notebook)
    (journals : list string) (w : world) (a1 a2 : string) (rest : list string)
    (k j : nat) (nb : notebook) (jn : string) :
  stdin w = a1 :: a2 :: rest ->
  int_of_str (strip a1) = Some (Z.of_nat (S k)) ->
  notebooks !! k = Some nb ->
  int_of_str (strip a2) = Some (Z.of_nat (S j)) ->
  journals !! j = Some jn ->
  decodable (config_home w) ->
  let c := Config (nb_guid nb) (nb_name nb) jn
             (Some (carried_pages (previous_config w) (nb_guid nb))) in
  let r := run_setup P data_dir notebooks journals w in
  r.1 = Ok tt /\
  stdin r.2 = rest /\
  store r.2 = store w /\
  log r.2 = log w ++ [Saved c] /\
  config_home r.2 = Some (Some (Json c)).
Proof.
  intros Hin Hn Hnb Hm Hjn Hdec. cbv zeta.
  destruct (run_setup_selects data_dir notebooks journals w a1 (a2 :: rest) k nb
              Hin Hn Hnb) as [outs ->].
  assert (Hj : (j < length journals)%nat) by (apply lookup_lt_is_Some; eauto).
  destruct journals as [|default_choice others]; [discriminate|].
  assoc. printed. cbv beta. assoc. listed. cbv beta. assoc. printed. cbv beta.
  assoc. erewrite bind_eq by (unfold gets; reflexivity). cbv beta. said.
  assoc.
  erewrite bind_eq
    by (eapply select_number_step; [said; reflexivity|exact Hm|lia]).
  cbv beta. erewrite bind_eq by (unfold ret; reflexivity).
  replace (Z.to_nat (Z.of_nat (S j) - 1)) with j by lia. rewrite Hjn.
  cbn [default from_option id].
  match goal with |- context [finish_setup P nb jn ?w1] =>
    destruct (finish_setup_ok nb jn w1 Hdec) as [outs' Hfin]
  end.
  cbv zeta in Hfin. rewrite Hfin. unfold previous_config. cbn [fst snd]. said.
  rewrite ?app_nil_r. split_and!; reflexivity.
Qed.

(** X16.  The journal typed when none can be listed.  When the Day One
    database yields no journal name, setup asks for a name: with the
    number of a notebook and then a line typed, it saves that line
    without the blanks around it as the journal, or [Journal] when
    nothing but blanks was typed. *)
Theorem setup_asks_for_the_journal (data_dir : string) (notebooks : list notebook)
    (db : journal_db) (w : world) (a1 a2 : string) (rest : list string)
    (k : nat) (nb : notebook) :
  list_dayone_journals db = [] ->
  stdin w = a1 :: a2 :: rest ->
  int_of_str (strip a1) = Some (Z.of_nat (S k)) ->
  notebooks !! k = Some nb ->
  decodable (config_home w) ->
  let journal := if blank a2 then "Journal" else strip a2 in
  let c := Config (nb_guid nb) (nb_name nb) journal
             (Some (carried_pages (previous_config w) (nb_guid nb))) in
  let r := run_setup P data_dir notebooks (list_dayone_journals db) w in
  r.1 = Ok tt /\
  stdin r.2 = rest /\
  log r.2 = log w ++ [Saved c] /\
  config_home r.2 = Some (Some (Json c)).
Proof.
  intros Hdb Hin Hn Hnb Hdec. cbv zeta. rewrite Hdb.
  destruct (run_setup_selects data_dir notebooks [] w a1 (a2 :: rest) k nb
              Hin Hn Hnb) as [outs ->].
  assoc. printed. cbv beta. assoc.
  erewrite bind_eq by (apply input_some; said; reflexivity).
  cbv beta iota zeta. erewrite bind_eq by (unfold ret; reflexivity).
  assert (Hj : (if nonempty (strip a2) then strip a2 else "Journal")
               = (if blank a2 then "Journal" else strip a2)).
  { unfold nonempty. destruct (blank a2) eqn:Hb.
    - unfold strip. rewrite (lstrip_blank a2 Hb). reflexivity.
    - destruct (String.eqb_spec (strip a2) "") as [He|]; [|reflexivity].
      apply strip_empty_blank in He. congruence. }
  rewrite Hj.
  match goal with |- context [finish_setup P nb ?jn ?w1] =>
    destruct (finish_setup_ok nb jn w1 Hdec) as [outs' Hfin]
  end.
  cbv zeta in Hfin. rewrite Hfin. unfold previous_config. cbn [fst snd]. said.
  rewrite ?app_nil_r. split_and!; reflexivity.
Qed.

End Choices.

(** ** The entry point *)

Section Entry.

Variable P : platform.




End Entry.

(** ** Sample runs of the further statements *)



(** The answer [2] among three entries. *)
Lemma select_number_accepts_numeral_sample :
  let w := terminal_world ["2"; "x"] in
  stdin w = show 2 :: ["x"] /\
  (1 <= 2 <= 3)%nat /\
  select_number "Select notebook number: " 3 (stdin w) w
  = (Ok (2 - 1)%nat,
     set_stdin ["x"] (add_stdout "Select notebook number: " w)).
Proof.
  cbv zeta.
  assert (Hin : stdin (terminal_world ["2"; "x"]) = show 2 :: ["x"])
    by (vm_compute; reflexivity).
  assert (Hk : (1 <= 2 <= 3)%nat) by lia.
  split; [exact Hin|]. split; [exact Hk|].
  exact (select_number_accepts_numeral "Select notebook number: " 3 2 ["x"]
           (terminal_world ["2"; "x"]) Hin Hk).
Defined.

(** A word and a number out of range, then the end of input. *)
Lemma select_number_runs_out_sample :
  let w := terminal_world ["x"; "7"] in
  Forall (rejected 3) (stdin w) /\
  (select_number "Select notebook number: " 3 (stdin w) w).1 = Exit 0 /\
  stdin (select_number "Select notebook number: " 3 (stdin w) w).2 = [].
Proof.
  cbv zeta.
  assert (Hall : Forall (rejected 3) (stdin (terminal_world ["x"; "7"]))).
  { apply Forall_cons. split; [exact I|].
    apply Forall_cons. split; [|apply Forall_nil; exact I].
    unfold rejected.
    replace (int_of_str (strip "7")) with (Some 7) by (vm_compute; reflexivity).
    lia. }
  split; [exact Hall|].
  exact (select_number_runs_out "Select notebook number: " 3
           (terminal_world ["x"; "7"]) Hall).
Defined.

(** Blank diagnostics, one line, and a traceback. *)
Lemma rmc_error_line_is_last_line_sample :
  rmc_error_line "  " = "unknown error" /\
  rmc_error_line " no such file " = "no such file" /\
  rmc_error_line ("Traceback" ++ nl ++ "ValueError: bad block" ++ nl)
  = "ValueError: bad block".
Proof.
  destruct rmc_error_line_is_last_line as (Hblank & Hone & Hlast).
  split; [apply Hblank; reflexivity|].
  split.
  - apply (Hone " no such file "); [discriminate|reflexivity].
  - apply (Hlast _ "Traceback" "010"%char "ValueError: bad block");
      [reflexivity|reflexivity|reflexivity|discriminate].
Defined.


(** The second notebook and the first journal, on a fresh machine. *)
Lemma setup_saves_the_choice_sample :
  let P := steady_platform in
  let w := terminal_world ["2"; " 1 "] in
  let c := Config "nb2" "Work" "Journal" (Some []) in
  let r := run_setup P "/data" sample_notebooks ["Journal"; "Travel"] w in
  r.1 = Ok tt /\
  stdin r.2 = [] /\
  store r.2 = store w /\
  log r.2 = log w ++ [Saved c] /\
  config_home r.2 = Some (Some (Json c)).
Proof.
  cbv zeta.
  apply (setup_saves_the_choice steady_platform "/data" sample_notebooks
           ["Journal"; "Travel"] (terminal_world ["2"; " 1 "]) "2" " 1 " []
           1 0 (Notebook "nb2" "Work" "" 1 1) "Journal").
  - reflexivity.
  - vm_compute. reflexivity.
  - reflexivity.
  - vm_compute. reflexivity.
  - reflexivity.
  - exact I.
Defined.

(** No database: the journal is typed, here with blanks around it. *)
Lemma setup_asks_for_the_journal_sample :
  let P := steady_platform in
  let w := terminal_world ["1"; "  Travel "] in
  let c := Config "nb" "Diary" "Travel" (Some []) in
  let r := run_setup P "/data" sample_notebooks (list_dayone_journals NoDatabase) w in
  list_dayone_journals NoDatabase = [] /\
  r.1 = Ok tt /\
  stdin r.2 = [] /\
  log r.2 = log w ++ [Saved c] /\
  config_home r.2 = Some (Some (Json c)).
Proof.
  cbv zeta. split; [reflexivity|].
  apply (setup_asks_for_the_journal steady_platform "/data" sample_notebooks
           NoDatabase (terminal_world ["1"; "  Travel "]) "1" "  Travel " []
           0 (Notebook "nb" "Diary" "" 2 2)).
  - reflexivity.
  - reflexivity.
  - vm_compute. reflexivity.
  - reflexivity.
  - exact I.
Defined.

